(** * SceneManager: a shallow embedding of the scene graph, the shading
    pipeline, the texture and material registries and the scene serializer
    of the 7-1 Final Project (SceneManager.cpp / SceneManager.h).

    Conventions of the embedding:
    - a GLSL/glm [float] is a real number ([R]); the arithmetic the claims
      depend on (the rotation step, the model matrix) is written out over [R];
    - [std::string] is Stdlib's [string], [std::string::find] is [find_from];
    - a [std::function<void()>] draw action is an [option draw_action]:
      [None] is the empty function object, [Some] the captured call;
    - [std::vector] is [list]; a fixed C array is a [list] of its length whose
      store out of bounds is undefined behaviour, modelled as [None];
    - the shader backend (ShaderManager, an external collaborator) is a store
      of uniforms keyed by name: [set*Value name v] overwrites [name] with [v]. *)

From Stdlib Require Import String Ascii List ZArith Reals Lra Lia Bool.

Local Set Warnings "-register-all".
Import ListNotations.

Open Scope Z_scope.

(** ** glm values *)

Abbreviation float := R (only parsing).

Record vec2 := mkVec2 { v2x : float; v2y : float }.
Record vec3 := mkVec3 { vx : float; vy : float; vz : float }.
Record vec4 := mkVec4 { vr : float; vg : float; vb : float; va : float }.

(** ** Strings *)

(** [std::string::find(needle)] from position [pos] of [hay]: [None] is [npos]. *)
Fixpoint find_from (needle hay : string) (pos : nat) : option nat :=
  if String.prefix needle hay then Some pos
  else match hay with
       | EmptyString => None
       | String _ rest => find_from needle rest (S pos)
       end.

(** [tag.find(needle) != std::string::npos] *)
Definition contains (needle hay : string) : bool :=
  match find_from needle hay 0 with Some _ => true | None => false end.

(** [std::to_string] on an [unsigned int] (decimal, no leading zeros). *)
Fixpoint digits_of (fuel n : nat) (acc : string) : string :=
  match fuel with
  | O => acc
  | S fuel' =>
      let d := Nat.modulo n 10 in
      let acc' := String (ascii_of_nat (48 + d)) acc in
      if Nat.ltb n 10 then acc' else digits_of fuel' (Nat.div n 10) acc'
  end.

Definition to_string (n : nat) : string := digits_of (S n) n EmptyString.

(** ** Meshes and draw actions *)

(** The primitive meshes of the ShapeMeshes library. *)
Inductive primitive :=
| PBox | PCone | PCylinder | PPlane | PPrism
| PPyramid3 | PPyramid4 | PSphere | PTaperedCylinder | PTorus.

(** What a captured draw lambda does when invoked:
    [[this]() { m_basicMeshes->Draw<P>Mesh(); }] or the imported mesh's
    [[VAO, indices]() { glDrawElements(..., indices.size(), ...); }]. *)
Inductive draw_action :=
| DrawPrimitive (p : primitive)
| DrawImported (vao : Z) (index_count : nat).

(** [SceneManager::MESH_OBJECT]; [isRotating] defaults to [false]. *)
Record MESH_OBJECT := mkMesh {
  tag : string;
  rotation : vec3;
  position : vec3;
  scale : vec3;
  materialTag : string;
  textureTag : string;
  uvScale : vec2;
  shaderColor : vec4;
  drawFunction : option draw_action;
  isRotating : bool
}.

(** [SceneManager::AddMeshToScene]: [newMesh] is default-constructed, so its
    [isRotating] keeps the member initializer [false]. *)
Definition AddMeshToScene (tag0 : string) (position0 rotation0 scale0 : vec3)
    (materialTag0 textureTag0 : string) (uvScale0 : vec2) (shaderColor0 : vec4)
    (drawFunction0 : option draw_action) (m_meshes : list MESH_OBJECT)
    : list MESH_OBJECT :=
  m_meshes ++ [mkMesh tag0 rotation0 position0 scale0 materialTag0 textureTag0
                      uvScale0 shaderColor0 drawFunction0 false].

Definition zero3 : vec3 := mkVec3 0%R 0%R 0%R.
Definition one3 : vec3 := mkVec3 1%R 1%R 1%R.
Definition one2 : vec2 := mkVec2 1%R 1%R.
Definition one4 : vec4 := mkVec4 1%R 1%R 1%R 1%R.

(** [AddBox] ... [AddTorus]: one [AddMeshToScene] call each. *)
Definition AddBox := AddMeshToScene "box" zero3 zero3 one3 "" "" one2 one4 (Some (DrawPrimitive PBox)).
Definition AddCone := AddMeshToScene "cone" zero3 zero3 one3 "" "" one2 one4 (Some (DrawPrimitive PCone)).
Definition AddCylinder := AddMeshToScene "cylinder" zero3 zero3 one3 "" "" one2 one4 (Some (DrawPrimitive PCylinder)).
Definition AddPlane := AddMeshToScene "plane" zero3 zero3 one3 "" "" one2 one4 (Some (DrawPrimitive PPlane)).
Definition AddPrism := AddMeshToScene "prism" zero3 zero3 one3 "" "" one2 one4 (Some (DrawPrimitive PPrism)).
Definition AddPyramid3 := AddMeshToScene "pyramid3" zero3 zero3 one3 "" "" one2 one4 (Some (DrawPrimitive PPyramid3)).
Definition AddPyramid4 := AddMeshToScene "pyramid4" zero3 zero3 one3 "" "" one2 one4 (Some (DrawPrimitive PPyramid4)).
Definition AddSphere := AddMeshToScene "sphere" zero3 zero3 one3 "" "" one2 one4 (Some (DrawPrimitive PSphere)).
Definition AddTaperedCylinder := AddMeshToScene "tapered cylinder" zero3 zero3 one3 "" "" one2 one4 (Some (DrawPrimitive PTaperedCylinder)).
Definition AddTorus := AddMeshToScene "torus" zero3 zero3 one3 "" "" one2 one4 (Some (DrawPrimitive PTorus)).

(** [m_meshes.erase(m_meshes.begin() + i)] *)
Definition erase {A} (l : list A) (i : nat) : list A := firstn i l ++ skipn (S i) l.

(** [SceneManager::RemoveMesh]: [index] is an [int]; [index < m_meshes.size()]
    is only evaluated once [index >= 0] holds. *)
Definition RemoveMesh (index : Z) (m_meshes : list MESH_OBJECT) : list MESH_OBJECT :=
  if (0 <=? index) && (index <? Z.of_nat (length m_meshes))
  then erase m_meshes (Z.to_nat index)
  else m_meshes.

(** ** glm matrices *)

(** A [glm::mat4] is column-major: [M c r] is [M[c][r]], column [c], row [r]. *)
Inductive idx := I0 | I1 | I2 | I3.
Definition mat4 := idx -> idx -> float.

(** ** The shader backend *)

(** A uniform value as the ShaderManager setters pass it. *)
Inductive uniform_value :=
| UInt (i : Z)
| UFloat (f : float)
| UVec2 (v : vec2)
| UVec3 (v : vec3)
| UVec4 (v : vec4)
| UMat4 (m : mat4).

(** The uniforms of the shader program, by name. *)
Definition uniforms := string -> option uniform_value.

(** [setIntValue], [setFloatValue], [setVec*Value], [setMat4Value],
    [setSampler2DValue]: each overwrites the named uniform. *)
Definition set_uniform (name : string) (v : uniform_value) (u : uniforms) : uniforms :=
  fun n => if String.eqb n name then Some v else u n.

Definition g_ModelName := "model"%string.
Definition g_ColorValueName := "objectColor"%string.
Definition g_TextureValueName := "objectTexture"%string.
Definition g_UseTextureName := "bUseTexture"%string.

(** ** Material registry *)

(** [SceneManager::OBJECT_MATERIAL] *)
Record OBJECT_MATERIAL := mkMaterial {
  ambientStrength : float;
  ambientColor : vec3;
  diffuseColor : vec3;
  specularColor : vec3;
  shininess : float;
  mtag : string
}.

(** The loop of [FindMaterial]: on the first entry whose tag equals [tag0],
    the five lighting fields are copied into [material]; the tag is not. *)
Fixpoint find_material_loop (mats : list OBJECT_MATERIAL) (tag0 : string)
    (material : OBJECT_MATERIAL) : bool * OBJECT_MATERIAL :=
  match mats with
  | [] => (false, material)
  | m :: rest =>
      if String.eqb (mtag m) tag0
      then (true, mkMaterial (ambientStrength m) (ambientColor m) (diffuseColor m)
                             (specularColor m) (shininess m) (mtag material))
      else find_material_loop rest tag0 material
  end.

(** [SceneManager::FindMaterial]: returns [false] on an empty registry and
    [true] otherwise (the source returns [true], not [bFound]); [material]
    is the caller's out-parameter. *)
Definition FindMaterial (mats : list OBJECT_MATERIAL) (tag0 : string)
    (material : OBJECT_MATERIAL) : bool * OBJECT_MATERIAL :=
  match mats with
  | [] => (false, material)
  | _ => let '(_, m) := find_material_loop mats tag0 material in (true, m)
  end.

(** [SceneManager::SetShaderMaterial]. The local [OBJECT_MATERIAL material]
    is declared without initializer: its indeterminate contents are the
    parameter [uninit]. *)
Definition SetShaderMaterial (uninit : OBJECT_MATERIAL) (mats : list OBJECT_MATERIAL)
    (materialTag0 : string) (u : uniforms) : uniforms :=
  if Nat.ltb 0 (length mats) then
    let '(bReturn, material) := FindMaterial mats materialTag0 uninit in
    if bReturn then
      set_uniform "material.shininess" (UFloat (shininess material))
        (set_uniform "material.specularColor" (UVec3 (specularColor material))
          (set_uniform "material.diffuseColor" (UVec3 (diffuseColor material))
            (set_uniform "material.ambientStrength" (UFloat (ambientStrength material))
              (set_uniform "material.ambientColor" (UVec3 (ambientColor material)) u))))
    else u
  else u.

(** [SceneManager::DefineObjectMaterials]: the registry after scene
    preparation (the double literals 0.3, 0.01 and 16.0 ... are converted
    to [float]; the values are kept as written). *)
Definition DefineObjectMaterials : list OBJECT_MATERIAL :=
  [ mkMaterial 0.4 (mkVec3 0.3 0.3 0.3) (mkVec3 0.5 0.5 0.5) (mkVec3 0.2 0.2 0.2) 16 "default";
    mkMaterial 0.3 (mkVec3 0.2 0.2 0.2) (mkVec3 0.2 0.2 0.2) (mkVec3 0.5 0.5 0.5) 22 "metal";
    mkMaterial 0.2 (mkVec3 0.1 0.1 0.1) (mkVec3 0.3 0.3 0.3) (mkVec3 0.3 0.3 0.3) 22 "wood";
    mkMaterial 0.5 (mkVec3 0.1 0.1 0.1) (mkVec3 0.3 0.3 0.3) (mkVec3 0.1 0.1 0.01) 80 "picture frame";
    mkMaterial 0.2 (mkVec3 0.1 0.1 0.1) (mkVec3 0.3 0.3 0.3) (mkVec3 0.3 0.3 0.3) 0.3 "woodNoShine";
    mkMaterial 0.2 (mkVec3 0.2 0.2 0.2) (mkVec3 0.5 0.5 0.5) (mkVec3 0.01 0.01 0.01) 3 "wall";
    mkMaterial 0.3 (mkVec3 0.4 0.4 0.4) (mkVec3 0.3 0.3 0.3) (mkVec3 0.1 0.1 0.01) 12 "glass" ]%R.

(** ** Texture registry *)

(** [SceneManager::TEXTURE_INFO] *)
Record TEXTURE_INFO := mkTexture { ttag : string; ID : Z }.

(** [m_loadedTextures] and the fixed array [TEXTURE_INFO m_textureIDs[16]]. *)
Record texture_registry := mkRegistry {
  m_loadedTextures : Z;
  m_textureIDs : list TEXTURE_INFO
}.

(** A store [arr[i] = v] into a fixed-size C array: [None] when [i] is out
    of bounds (undefined behaviour). *)
Definition array_store {A} (arr : list A) (i : Z) (v : A) : option (list A) :=
  if (0 <=? i) && (i <? Z.of_nat (length arr))
  then Some (firstn (Z.to_nat i) arr ++ v :: skipn (S (Z.to_nat i)) arr)
  else None.

(** What [stbi_load] reports for a decoded image. *)
Record image := mkImage { width : Z; height : Z; colorChannels : Z }.

(** [SceneManager::CreateGLTexture]. [stbi_load] is the image decoder
    ([None] is a null pointer) and [textureID] the name [glGenTextures]
    hands out. The result is [None] when the registration store runs past
    the end of [m_textureIDs]; otherwise the returned [bool] and the
    registry afterwards. *)
Definition CreateGLTexture (stbi_load : string -> option image) (textureID : Z)
    (filename tag0 : string) (reg : texture_registry)
    : option (bool * texture_registry) :=
  match stbi_load filename with
  | None => Some (false, reg)
  | Some img =>
      if (colorChannels img =? 3) || (colorChannels img =? 4) then
        match array_store (m_textureIDs reg) (m_loadedTextures reg)
                          (mkTexture tag0 textureID) with
        | None => None
        | Some arr => Some (true, mkRegistry (m_loadedTextures reg + 1) arr)
        end
      else Some (false, reg)
  end.

(** The loop of [FindTextureSlot], from slot [index]. *)
Fixpoint find_slot_loop (entries : list TEXTURE_INFO) (index loaded : Z)
    (tag0 : string) : Z :=
  match entries with
  | [] => -1
  | e :: rest =>
      if index <? loaded then
        if String.eqb (ttag e) tag0 then index
        else find_slot_loop rest (index + 1) loaded tag0
      else -1
  end.

(** [SceneManager::FindTextureSlot]: the first slot whose tag is [tag0],
    or [-1]. *)
Definition FindTextureSlot (reg : texture_registry) (tag0 : string) : Z :=
  find_slot_loop (m_textureIDs reg) 0 (m_loadedTextures reg) tag0.

(** ** Shader setters *)

(** [SceneManager::SetShaderTexture] *)
Definition SetShaderTexture (reg : texture_registry) (textureTag0 : string)
    (u : uniforms) : uniforms :=
  let u1 := set_uniform g_UseTextureName (UInt 1) u in
  set_uniform g_TextureValueName (UInt (FindTextureSlot reg textureTag0)) u1.

(** [SceneManager::SetTextureUVScale] *)
Definition SetTextureUVScale (uu vv : float) (u : uniforms) : uniforms :=
  set_uniform "UVscale" (UVec2 (mkVec2 uu vv)) u.

(** [SceneManager::SetShaderColor] *)
Definition SetShaderColor (red green blue alpha : float) (u : uniforms) : uniforms :=
  let u1 := set_uniform g_UseTextureName (UInt 0) u in
  set_uniform g_ColorValueName (UVec4 (mkVec4 red green blue alpha)) u1.

(** ** glm transforms *)

Local Open Scope R_scope.

Definition idx_eqb (i j : idx) : bool :=
  match i, j with
  | I0, I0 | I1, I1 | I2, I2 | I3, I3 => true
  | _, _ => false
  end.

(** [glm::mat4(1)] *)
Definition mat_identity : mat4 := fun c r => if idx_eqb c r then 1 else 0.

(** [A * B] for [glm::mat4]. *)
Definition mat_mul (A B : mat4) : mat4 :=
  fun c r => A I0 r * B c I0 + A I1 r * B c I1 + A I2 r * B c I2 + A I3 r * B c I3.

(** [M * v] for a [glm::vec4] given by its components. *)
Definition mat_apply (M : mat4) (v : idx -> float) : idx -> float :=
  fun r => M I0 r * v I0 + M I1 r * v I1 + M I2 r * v I2 + M I3 r * v I3.

(** [glm::scale(v)] (gtx/transform) *)
Definition glm_scale (v : vec3) : mat4 :=
  fun c r =>
    match c, r with
    | I0, I0 => vx v | I1, I1 => vy v | I2, I2 => vz v | I3, I3 => 1
    | _, _ => 0
    end.

(** [glm::translate(v)] (gtx/transform) *)
Definition glm_translate (v : vec3) : mat4 :=
  fun c r =>
    match c, r with
    | I3, I0 => vx v | I3, I1 => vy v | I3, I2 => vz v
    | _, _ => mat_identity c r
    end.

(** [glm::radians] *)
Definition glm_radians (degrees : float) : float := degrees * (PI / 180).

(** [glm::rotate(m, angle, v)] (ext/matrix_transform): the Rodrigues
    matrix [Rotate] about [normalize(v)], then
    [Result[i] = m[0] * Rotate[i][0] + m[1] * Rotate[i][1] + m[2] * Rotate[i][2]]
    for [i < 3] and [Result[3] = m[3]]. *)
Definition glm_rotate_m (m : mat4) (angle : float) (v : vec3) : mat4 :=
  let c := cos angle in
  let s := sin angle in
  let inv := 1 / sqrt (vx v * vx v + vy v * vy v + vz v * vz v) in
  let a0 := vx v * inv in
  let a1 := vy v * inv in
  let a2 := vz v * inv in
  let t0 := (1 - c) * a0 in
  let t1 := (1 - c) * a1 in
  let t2 := (1 - c) * a2 in
  let Rot (i j : idx) : float :=
    match i, j with
    | I0, I0 => c + t0 * a0
    | I0, I1 => t0 * a1 + s * a2
    | I0, I2 => t0 * a2 - s * a1
    | I1, I0 => t1 * a0 - s * a2
    | I1, I1 => c + t1 * a1
    | I1, I2 => t1 * a2 + s * a0
    | I2, I0 => t2 * a0 + s * a1
    | I2, I1 => t2 * a1 - s * a0
    | I2, I2 => c + t2 * a2
    | _, _ => 0
    end in
  fun i r =>
    match i with
    | I3 => m I3 r
    | _ => m I0 r * Rot i I0 + m I1 r * Rot i I1 + m I2 r * Rot i I2
    end.

(** [glm::rotate(angle, v)] (gtx/transform) is [rotate(mat4(1), angle, v)]. *)
Definition glm_rotate (angle : float) (v : vec3) : mat4 :=
  glm_rotate_m mat_identity angle v.

(** The matrix [SceneManager::SetTransformations] computes:
    [translation * rotationX * rotationY * rotationZ * scale]. *)
Definition model_matrix (scaleXYZ : vec3) (XrotationDegrees YrotationDegrees
    ZrotationDegrees : float) (positionXYZ : vec3) : mat4 :=
  let scale0 := glm_scale scaleXYZ in
  let rotationX := glm_rotate (glm_radians XrotationDegrees) (mkVec3 1 0 0) in
  let rotationY := glm_rotate (glm_radians YrotationDegrees) (mkVec3 0 1 0) in
  let rotationZ := glm_rotate (glm_radians ZrotationDegrees) (mkVec3 0 0 1) in
  let translation := glm_translate positionXYZ in
  mat_mul (mat_mul (mat_mul (mat_mul translation rotationX) rotationY) rotationZ) scale0.

(** [SceneManager::SetTransformations]: pushes the model matrix. *)
Definition SetTransformations (scaleXYZ : vec3) (XrotationDegrees YrotationDegrees
    ZrotationDegrees : float) (positionXYZ : vec3) (u : uniforms) : uniforms :=
  set_uniform g_ModelName
    (UMat4 (model_matrix scaleXYZ XrotationDegrees YrotationDegrees
                         ZrotationDegrees positionXYZ)) u.

(** The composition the specification describes (section 4.5 step 1), with
    the textbook rotation matrices about the coordinate axes, for comparison
    with [model_matrix]. *)
Definition spec_rotation_x (t : float) : mat4 :=
  fun c r =>
    match c, r with
    | I1, I1 | I2, I2 => cos t
    | I1, I2 => sin t
    | I2, I1 => - sin t
    | _, _ => mat_identity c r
    end.

Definition spec_rotation_y (t : float) : mat4 :=
  fun c r =>
    match c, r with
    | I0, I0 | I2, I2 => cos t
    | I0, I2 => - sin t
    | I2, I0 => sin t
    | _, _ => mat_identity c r
    end.

Definition spec_rotation_z (t : float) : mat4 :=
  fun c r =>
    match c, r with
    | I0, I0 | I1, I1 => cos t
    | I0, I1 => sin t
    | I1, I0 => - sin t
    | _, _ => mat_identity c r
    end.

Definition spec_model_matrix (scaleXYZ : vec3) (rx ry rz : float) (positionXYZ : vec3) : mat4 :=
  mat_mul (glm_translate positionXYZ)
    (mat_mul (spec_rotation_x (rx * PI / 180))
      (mat_mul (spec_rotation_y (ry * PI / 180))
        (mat_mul (spec_rotation_z (rz * PI / 180)) (glm_scale scaleXYZ)))).

(** The homogeneous point [vec4(v, 1)]. *)
Definition point (v : vec3) : idx -> float :=
  fun r => match r with I0 => vx v | I1 => vy v | I2 => vz v | I3 => 1 end.

(** The homogeneous origin [vec4(0, 0, 0, 1)]. *)
Definition origin : idx -> float := point zero3.

(** ** The per-instance render pass *)

(** The uniforms pushed so far and the draw calls issued so far. *)
Record frame := mkFrame { fr_uniforms : uniforms; fr_draws : list draw_action }.

(** The head of the loop body of [RenderMeshes]: [rotating] is the condition
    [if (isRotating)], where [isRotating] names the SceneManager member. *)
Definition advance_rotation (rotating : bool) (rot : vec3) : vec3 :=
  if rotating then
    let y := vy rot + 0.2 in
    mkVec3 (vx rot) (if Rlt_dec 360 y then y - 360 else y) (vz rot)
  else rot.

Definition set_rotation (m : MESH_OBJECT) (rot : vec3) : MESH_OBJECT :=
  mkMesh (tag m) rot (position m) (scale m) (materialTag m) (textureTag m)
         (uvScale m) (shaderColor m) (drawFunction m) (isRotating m).

(** One iteration of the loop of [SceneManager::RenderMeshes] on [mesh]
    (a reference into [m_meshes]: the updated rotation is written back).
    [mgrRotating] is the SceneManager member [isRotating]; [uninit] the
    indeterminate local of [SetShaderMaterial]. *)
Definition render_mesh (mgrRotating : bool) (uninit : OBJECT_MATERIAL)
    (mats : list OBJECT_MATERIAL) (reg : texture_registry)
    (mesh : MESH_OBJECT) (fr : frame) : MESH_OBJECT * frame :=
  let mesh1 := set_rotation mesh (advance_rotation mgrRotating (rotation mesh)) in
  let u1 := SetTransformations (scale mesh1) (vx (rotation mesh1)) (vy (rotation mesh1))
              (vz (rotation mesh1)) (position mesh1) (fr_uniforms fr) in
  let u2 := SetShaderMaterial uninit mats (materialTag mesh1) u1 in
  let u3 := SetShaderTexture reg (textureTag mesh1) u2 in
  let u4 := SetTextureUVScale (v2x (uvScale mesh1)) (v2y (uvScale mesh1)) u3 in
  let u5 := SetShaderColor (vr (shaderColor mesh1)) (vg (shaderColor mesh1))
              (vb (shaderColor mesh1)) (va (shaderColor mesh1)) u4 in
  let draws := match drawFunction mesh1 with
               | Some d => fr_draws fr ++ [d]
               | None => fr_draws fr
               end in
  (mesh1, mkFrame u5 draws).

(** [SceneManager::RenderMeshes]: the updated [m_meshes] and the frame. *)
Fixpoint RenderMeshes (mgrRotating : bool) (uninit : OBJECT_MATERIAL)
    (mats : list OBJECT_MATERIAL) (reg : texture_registry)
    (meshes : list MESH_OBJECT) (fr : frame) : list MESH_OBJECT * frame :=
  match meshes with
  | [] => ([], fr)
  | mesh :: rest =>
      let '(mesh1, fr1) := render_mesh mgrRotating uninit mats reg mesh fr in
      let '(rest1, fr2) := RenderMeshes mgrRotating uninit mats reg rest fr1 in
      (mesh1 :: rest1, fr2)
  end.

Local Close Scope R_scope.

(** ** Model import (Assimp) *)

(** The parts of an [aiMesh] the import reads: its vertex count and the
    vertex indices of each face. *)
Record aiMesh := mkAiMesh { mNumVertices : nat; mFaces : list (list nat) }.

(** An [aiNode]: the indices of its meshes into [aiScene::mMeshes], and its
    children. *)
Inductive aiNode := mkAiNode (mMeshes_of_node : list nat) (mChildren : list aiNode).

Record aiScene := mkAiScene { mMeshes : list aiMesh; mRootNode : aiNode }.

Definition empty_aiMesh := mkAiMesh 0 [].

(** The state [DeserializeSceneData] and the import act on: [m_meshes], the
    next OpenGL object name, and the lines written to the console. *)
Record scene := mkScene {
  m_meshes : list MESH_OBJECT;
  gl_next_name : Z;
  console : list string
}.

Definition set_meshes (s : scene) (ms : list MESH_OBJECT) : scene :=
  mkScene ms (gl_next_name s) (console s).

Definition log (s : scene) (line : string) : scene :=
  mkScene (m_meshes s) (gl_next_name s) (console s ++ [line]).

(** [m_meshes.back().isRotating = b] *)
Fixpoint set_back_isRotating (b : bool) (l : list MESH_OBJECT) : list MESH_OBJECT :=
  match l with
  | [] => []
  | [m] => [mkMesh (tag m) (rotation m) (position m) (scale m) (materialTag m)
                   (textureTag m) (uvScale m) (shaderColor m) (drawFunction m) b]
  | m :: rest => m :: set_back_isRotating b rest
  end.

Section ModelImport.

(** The instance fields [LoadModel] passes down unchanged to every mesh. *)
Variables (position0 rotation0 scale0 : vec3) (materialTag0 textureTag0 : string)
          (uvScale0 : vec2) (shaderColor0 : vec4) (isRotating0 : bool).

(** [SceneManager::ProcessMesh]: [glGenVertexArrays] / [glGenBuffers] hand
    out the names [VAO], [VBO], [EBO]; the draw lambda captures [VAO] and
    [indices], and draws [indices.size()] elements. *)
Definition ProcessMesh (mesh : aiMesh) (tag0 : string) (s : scene) : scene :=
  let indices := concat (mFaces mesh) in
  let VAO := gl_next_name s in
  let ms := AddMeshToScene tag0 position0 rotation0 scale0 materialTag0 textureTag0
              uvScale0 shaderColor0 (Some (DrawImported VAO (length indices)))
              (m_meshes s) in
  mkScene (set_back_isRotating isRotating0 ms) (gl_next_name s + 3) (console s).

(** The first loop of [ProcessNode]: mesh [i] of the node gets the tag
    [tag + std::to_string(i)]. *)
Fixpoint process_node_meshes (sc : aiScene) (tag0 : string) (i : nat)
    (ids : list nat) (s : scene) : scene :=
  match ids with
  | [] => s
  | k :: ids' =>
      process_node_meshes sc tag0 (S i) ids'
        (ProcessMesh (nth k (mMeshes sc) empty_aiMesh) (tag0 ++ to_string i) s)
  end.

(** [SceneManager::ProcessNode]: the node's meshes, then its children. *)
Fixpoint ProcessNode (node : aiNode) (sc : aiScene) (tag0 : string) (s : scene) : scene :=
  match node with
  | mkAiNode ids children =>
      let s1 := process_node_meshes sc tag0 0 ids s in
      (fix children_loop (cs : list aiNode) (s' : scene) : scene :=
         match cs with
         | [] => s'
         | c :: cs' => children_loop cs' (ProcessNode c sc tag0 s')
         end) children s1
  end.

(** [SceneManager::LoadModel]. [ReadFile] is the Assimp importer: [inl err]
    when the scene is null, incomplete or has no root node. *)
Definition LoadModel (ReadFile : string -> string + aiScene) (filename tag0 : string)
    (s : scene) : scene :=
  match ReadFile filename with
  | inl err => log s ("ERROR::ASSIMP::" ++ err)
  | inr sc => ProcessNode (mRootNode sc) sc tag0 s
  end.

End ModelImport.

(** ** Scene serializer *)

(** One element of the JSON array the serializer writes. Numbers are kept
    exactly: nlohmann's [dump] prints a number so that it reads back to the
    same value. *)
Record json_mesh := mkJson {
  j_tag : string;
  j_position : vec3;
  j_rotation : vec3;
  j_scale : vec3;
  j_materialTag : string;
  j_textureTag : string;
  j_uvScale : vec2;
  j_shaderColor : vec4;
  j_isRotating : bool
}.

(** The files: the JSON array a file holds, [None] when it cannot be opened. *)
Definition files := string -> option (list json_mesh).

Definition mesh_to_json (mesh : MESH_OBJECT) : json_mesh :=
  mkJson (tag mesh) (position mesh) (rotation mesh) (scale mesh) (materialTag mesh)
         (textureTag mesh) (uvScale mesh) (shaderColor mesh) (isRotating mesh).

(** [SceneManager::SerializeSceneData]: the file [filename] afterwards holds
    the array of the meshes' records, in order. *)
Definition SerializeSceneData (fs : files) (filename : string)
    (meshes : list MESH_OBJECT) : files :=
  fun f => if String.eqb f filename then Some (map mesh_to_json meshes) else fs f.

(** The imported-model branches of [DeserializeSceneData], in source order. *)
Definition model_asset (tag0 : string) : option string :=
  if contains "Stanford Bunny" tag0 then Some "../../Models/bunny.obj"%string
  else if contains "Lucy" tag0 then Some "../../Models/lucy.obj"%string
  else if contains "Suzanne" tag0 then Some "../../Models/suzanne.obj"%string
  else if contains "Teapot" tag0 then Some "../../Models/teapot.obj"%string
  else None.

(** The basic-mesh branches of [DeserializeSceneData], in source order. *)
Definition primitive_of_tag (tag0 : string) : option primitive :=
  if contains "box" tag0 then Some PBox
  else if contains "cone" tag0 then Some PCone
  else if contains "tapered cylinder" tag0 then Some PTaperedCylinder
  else if contains "cylinder" tag0 then Some PCylinder
  else if contains "plane" tag0 then Some PPlane
  else if contains "prism" tag0 then Some PPrism
  else if contains "pyramid3" tag0 then Some PPyramid3
  else if contains "pyramid4" tag0 then Some PPyramid4
  else if contains "sphere" tag0 then Some PSphere
  else if contains "torus" tag0 then Some PTorus
  else None.

(** The body of the loop of [DeserializeSceneData] on one record. *)
Definition deserialize_mesh (ReadFile : string -> string + aiScene)
    (j : json_mesh) (s : scene) : scene :=
  match model_asset (j_tag j) with
  | Some path =>
      LoadModel (j_position j) (j_rotation j) (j_scale j) (j_materialTag j)
        (j_textureTag j) (j_uvScale j) (j_shaderColor j) (j_isRotating j)
        ReadFile path (j_tag j) s
  | None =>
      let mesh := mkMesh (j_tag j) (j_rotation j) (j_position j) (j_scale j)
                    (j_materialTag j) (j_textureTag j) (j_uvScale j)
                    (j_shaderColor j) None (j_isRotating j) in
      match primitive_of_tag (j_tag j) with
      | Some p =>
          set_meshes s (AddMeshToScene (j_tag j) (j_position j) (j_rotation j)
                          (j_scale j) (j_materialTag j) (j_textureTag j)
                          (j_uvScale j) (j_shaderColor j)
                          (Some (DrawPrimitive p)) (m_meshes s))
      | None => set_meshes s (m_meshes s ++ [mesh])
      end
  end.

(** [SceneManager::DeserializeSceneData]. *)
Definition DeserializeSceneData (ReadFile : string -> string + aiScene) (fs : files)
    (filename : string) (s : scene) : scene :=
  match fs filename with
  | None => log s ("Could not open file: " ++ filename)
  | Some jScene =>
      fold_left (fun s' j => deserialize_mesh ReadFile j s') jScene (set_meshes s [])
  end.

(** The console lines the imported-model records of [js] leave when the
    importer fails on their asset: one "ERROR::ASSIMP::" line with the
    importer's message per such record, in order. *)
Definition import_errors (ReadFile : string -> string + aiScene) (js : list json_mesh)
    : list string :=
  flat_map (fun j => match model_asset (j_tag j) with
                     | Some p => match ReadFile p with
                                 | inl e => [("ERROR::ASSIMP::" ++ e)%string]
                                 | inr _ => []
                                 end
                     | None => []
                     end) js.

(** Every record of [js] that names an imported model names an asset the
    importer fails to read. *)
Definition imports_fail (ReadFile : string -> string + aiScene) (js : list json_mesh) : Prop :=
  Forall (fun j => match model_asset (j_tag j) with
                   | Some p => exists e, ReadFile p = inl e
                   | None => True
                   end) js.

(** ** Tables over the source *)

(** The ten primitive add operations with the tag and the primitive each
    one passes to [AddMeshToScene]. *)
Definition primitive_adders
    : list ((list MESH_OBJECT -> list MESH_OBJECT) * string * primitive) :=
  [ (AddBox, "box", PBox); (AddCone, "cone", PCone);
    (AddCylinder, "cylinder", PCylinder); (AddPlane, "plane", PPlane);
    (AddPrism, "prism", PPrism); (AddPyramid3, "pyramid3", PPyramid3);
    (AddPyramid4, "pyramid4", PPyramid4); (AddSphere, "sphere", PSphere);
    (AddTaperedCylinder, "tapered cylinder", PTaperedCylinder);
    (AddTorus, "torus", PTorus) ]%string.

(** The substrings [DeserializeSceneData] tests for. *)
Definition model_names : list string :=
  ["Stanford Bunny"; "Lucy"; "Suzanne"; "Teapot"]%string.

Definition primitive_names : list string :=
  ["box"; "cone"; "tapered cylinder"; "cylinder"; "plane"; "prism";
   "pyramid3"; "pyramid4"; "sphere"; "torus"]%string.


Definition option_to_list {A} (o : option A) : list A :=
  match o with Some a => [a] | None => [] end.

(** ** Texture lookup by ID, binding and release *)

(** The loops below index [m_textureIDs[i]] for [i < m_loadedTextures]; they
    stop at the end of the array, and the properties that depend on it assume
    [m_loadedTextures] within the array. The names [glGenTextures] hands out
    are drawn from a counter [next]. *)

(** The [int] value of a [uint32_t] (two's complement wrap-around). *)
Definition int_of_uint32 (x : Z) : Z := if x <? 2 ^ 31 then x else x - 2 ^ 32.

(** The loop of [FindTextureID], from slot [index]. *)
Fixpoint find_id_loop (entries : list TEXTURE_INFO) (index loaded : Z)
    (tag0 : string) : Z :=
  match entries with
  | [] => -1
  | e :: rest =>
      if index <? loaded then
        if String.eqb (ttag e) tag0 then int_of_uint32 (ID e)
        else find_id_loop rest (index + 1) loaded tag0
      else -1
  end.

(** [SceneManager::FindTextureID]: the [ID] of the first slot whose tag is
    [tag0], returned as an [int], or [-1]. *)
Definition FindTextureID (reg : texture_registry) (tag0 : string) : Z :=
  find_id_loop (m_textureIDs reg) 0 (m_loadedTextures reg) tag0.

(** The texture bound to [GL_TEXTURE_2D] on texture unit [GL_TEXTURE0 + i]. *)
Definition texture_units := Z -> option Z.

(** The loop of [BindGLTextures], from slot [i]: [glActiveTexture(GL_TEXTURE0 + i)]
    then [glBindTexture(GL_TEXTURE_2D, m_textureIDs[i].ID)]. *)
Fixpoint bind_loop (entries : list TEXTURE_INFO) (i loaded : Z)
    (units : texture_units) : texture_units :=
  match entries with
  | [] => units
  | e :: rest =>
      if i <? loaded then
        bind_loop rest (i + 1) loaded (fun k => if k =? i then Some (ID e) else units k)
      else units
  end.

(** [SceneManager::BindGLTextures] *)
Definition BindGLTextures (reg : texture_registry) (units : texture_units) : texture_units :=
  bind_loop (m_textureIDs reg) 0 (m_loadedTextures reg) units.

(** The loop of [DestroyGLTextures], from slot [i]:
    [glGenTextures(1, &m_textureIDs[i].ID)] stores the fresh name [next]. *)
Fixpoint destroy_loop (entries : list TEXTURE_INFO) (i loaded next : Z)
    : list TEXTURE_INFO * Z :=
  match entries with
  | [] => ([], next)
  | e :: rest =>
      if i <? loaded then
        let '(rest', next') := destroy_loop rest (i + 1) loaded (next + 1) in
        (mkTexture (ttag e) next :: rest', next')
      else (entries, next)
  end.

(** [SceneManager::DestroyGLTextures]: the registry and the next fresh name. *)
Definition DestroyGLTextures (reg : texture_registry) (next : Z) : texture_registry * Z :=
  let '(arr, next') := destroy_loop (m_textureIDs reg) 0 (m_loadedTextures reg) next in
  (mkRegistry (m_loadedTextures reg) arr, next').

(** ** The mesh editor of the GUI (MainCode.cpp) *)

(** The "Delete Mesh" button of [DrawImGui]: [RemoveMesh(curMeshIndex)], then
    [curMeshIndex = std::max(0, curMeshIndex - 1)]. *)
Definition delete_selected (meshes : list MESH_OBJECT) (curMeshIndex : Z)
    : list MESH_OBJECT * Z :=
  (RemoveMesh curMeshIndex meshes, Z.max 0 (curMeshIndex - 1)).

(** ** Import and load: helpers for the statements *)

(** Induction over an [aiNode] tree with a hypothesis for every child. *)
Fixpoint aiNode_rect' (P : aiNode -> Prop)
    (Hnode : forall ids cs, Forall P cs -> P (mkAiNode ids cs)) (n : aiNode) : P n :=
  match n with
  | mkAiNode ids cs =>
      Hnode ids cs
        ((fix go (cs : list aiNode) : Forall P cs :=
            match cs with
            | [] => Forall_nil P
            | c :: cs' => Forall_cons c (aiNode_rect' P Hnode c) (go cs')
            end) cs)
  end.

(** The tags [ProcessNode] gives the meshes of a node tree, in the order it
    visits them: for the node's [i]-th mesh [tag + std::to_string(i)], then
    the tags of each child's tree in turn. *)
Fixpoint node_tags (tag0 : string) (n : aiNode) : list string :=
  match n with
  | mkAiNode ids cs =>
      map (fun i => (tag0 ++ to_string i)%string) (seq 0 (length ids)) ++
      (fix go (cs : list aiNode) : list string :=
         match cs with [] => [] | c :: cs' => node_tags tag0 c ++ go cs' end) cs
  end.

(** An instance [LoadModel] creates for the given fields: the fields passed
    through, and an imported draw action. *)
Definition imported_instance (position0 rotation0 scale0 : vec3)
    (materialTag0 textureTag0 : string) (uvScale0 : vec2) (shaderColor0 : vec4)
    (isRotating0 : bool) (m : MESH_OBJECT) : Prop :=
  position m = position0 /\ rotation m = rotation0 /\ scale m = scale0 /\
  materialTag m = materialTag0 /\ textureTag m = textureTag0 /\
  uvScale m = uvScale0 /\ shaderColor m = shaderColor0 /\
  isRotating m = isRotating0 /\
  (exists vao n, drawFunction m = Some (DrawImported vao n)).

(** The instance [deserialize_mesh] builds from a record whose tag names no
    imported model: through [AddMeshToScene] (isRotating false) for a
    primitive tag, the bare record (no draw action) otherwise. *)
Definition record_instance (j : json_mesh) : MESH_OBJECT :=
  match primitive_of_tag (j_tag j) with
  | Some p => mkMesh (j_tag j) (j_rotation j) (j_position j) (j_scale j)
                (j_materialTag j) (j_textureTag j) (j_uvScale j) (j_shaderColor j)
                (Some (DrawPrimitive p)) false
  | None => mkMesh (j_tag j) (j_rotation j) (j_position j) (j_scale j)
              (j_materialTag j) (j_textureTag j) (j_uvScale j) (j_shaderColor j)
              None (j_isRotating j)
  end.

(** ** Concrete inputs *)

(** A three-instance scene: a box, a cone and a sphere. *)
Definition three_meshes : list MESH_OBJECT := AddSphere (AddCone (AddBox [])).

Definition no_files : files := fun _ => None.
Definition no_assets : string -> string + aiScene := fun _ => inl "Unable to open file"%string.

(** An importer that finds no asset; its message names the file. *)
Definition missing_assets : string -> string + aiScene :=
  fun p => inl ("Unable to open file " ++ p)%string.

(** A record tagged "lamp". *)
Definition lamp_record : json_mesh :=
  mkJson "lamp" zero3 zero3 one3 "wood" "" one2 one4 true.

(** A box turned to 359.9 degrees about Y, with its own [isRotating] set,
    and the same box with it cleared. *)
Definition rotating_box : MESH_OBJECT :=
  mkMesh "box" (mkVec3 0 359.9 0) zero3 one3 "" "" one2 one4 (Some (DrawPrimitive PBox)) true.

Definition still_box : MESH_OBJECT :=
  mkMesh "box" (mkVec3 0 359.9 0) zero3 one3 "" "" one2 one4 (Some (DrawPrimitive PBox)) false.

(** A registry holding the "floor" texture in slot 0, and an instance that
    names it. *)
Definition floor_registry : texture_registry := mkRegistry 1 [mkTexture "floor" 1].

Definition floor_plane : MESH_OBJECT :=
  mkMesh "plane" zero3 zero3 one3 "wood" "floor" one2 one4 (Some (DrawPrimitive PPlane)) false.

Definition no_uniforms : uniforms := fun _ => None.

(** Sixteen registered textures "t0" ... "t15" with handles 1 ... 16. *)
Definition sixteen_textures : texture_registry :=
  mkRegistry 16 (map (fun i => mkTexture ("t" ++ to_string i) (Z.of_nat i + 1)) (seq 0 16)).

(** A decoder that reads every file as a 64 x 64 RGB image. *)
Definition decode_rgb : string -> option image := fun _ => Some (mkImage 64 64 3).

(** A bunny asset with one mesh (one triangle) at its root node, and a reader
    that finds only the bunny. *)
Definition bunny_asset : aiScene :=
  mkAiScene [mkAiMesh 3 [[0; 1; 2]%nat]] (mkAiNode [0%nat] []).

Definition bunny_reader : string -> string + aiScene :=
  fun path => if String.eqb path "../../Models/bunny.obj" then inr bunny_asset
              else inl "Unable to open file"%string.

(** The instance the import of that bunny under the tag "Stanford Bunny"
    creates, and a box whose isRotating is set. *)
Definition bunny_instance : MESH_OBJECT :=
  mkMesh "Stanford Bunny0" zero3 zero3 one3 "" "" one2 one4 (Some (DrawImported 1 3)) false.

Definition spinning_box : MESH_OBJECT :=
  mkMesh "box" zero3 zero3 one3 "" "" one2 one4 (Some (DrawPrimitive PBox)) true.

(** The instance list after saving [S] to [filename] and loading it back. *)
Definition save_load (ReadFile : string -> string + aiScene) (fs : files)
    (filename : string) (s : scene) (S : list MESH_OBJECT) : list MESH_OBJECT :=
  m_meshes (DeserializeSceneData ReadFile (SerializeSceneData fs filename S) filename s).



(** * Properties *)

Example to_string_12 : to_string 12 = "12"%string. Proof. reflexivity. Qed.
Example to_string_0 : to_string 0 = "0"%string. Proof. reflexivity. Qed.
Example contains_tapered : contains "cylinder" "tapered cylinder" = true. Proof. reflexivity. Qed.
Example contains_pyramid : contains "pyramid3" "pyramid4" = false. Proof. reflexivity. Qed.
Example primitive_of_tapered : primitive_of_tag "tapered cylinder" = Some PTaperedCylinder.
Proof. reflexivity. Qed.

(** ** Primitive add operations *)

(** Claim C10. Each of AddBox, AddCone, AddCylinder, AddPlane, AddPrism,
    AddPyramid3, AddPyramid4, AddSphere, AddTaperedCylinder and AddTorus
    appends exactly one instance at the end of the list, leaving the others
    as they were; its tag is the primitive's name, its position and rotation
    (0,0,0), its scale (1,1,1), its material and texture tags empty, its UV
    scale (1,1), its color (1,1,1,1) and isRotating false; the tag matches no
    imported-model substring and is reconstructed as that same primitive. *)
Theorem primitive_add_appends_default :
  Forall (fun '(add, name, p) =>
            forall meshes : list MESH_OBJECT,
              add meshes =
                meshes ++ [mkMesh name zero3 zero3 one3 "" "" one2 one4
                                  (Some (DrawPrimitive p)) false]
              /\ model_asset name = None
              /\ primitive_of_tag name = Some p)
         primitive_adders.
Proof.
  unfold primitive_adders.
  repeat constructor.
Qed.

(** ** Removal by index *)

Lemma length_erase {A} (l : list A) (i : nat) :
  (i < length l)%nat -> length (erase l i) = pred (length l).
Proof.
  intros H. unfold erase. rewrite length_app, firstn_length_le by lia.
  rewrite length_skipn. lia.
Qed.

Lemma nth_error_erase_before {A} (l : list A) (i j : nat) :
  (j < i)%nat -> (i < length l)%nat -> nth_error (erase l i) j = nth_error l j.
Proof.
  intros Hj Hi. unfold erase.
  rewrite nth_error_app1 by (rewrite firstn_length_le; lia).
  rewrite nth_error_firstn. replace (Nat.ltb j i) with true
    by (symmetry; apply Nat.ltb_lt; lia). reflexivity.
Qed.

Lemma nth_error_erase_after {A} (l : list A) (i j : nat) :
  (i <= j)%nat -> (i < length l)%nat -> nth_error (erase l i) j = nth_error l (S j).
Proof.
  intros Hj Hi. unfold erase.
  rewrite nth_error_app2 by (rewrite firstn_length_le; lia).
  rewrite firstn_length_le by lia. rewrite nth_error_skipn.
  f_equal. lia.
Qed.

(** Claim C6. Removing at an index [i] below 0 or at least the count leaves
    the list unchanged; removing at [0 <= i < n] yields a list of count
    [n - 1] whose elements before [i] are those of the original list and
    whose element at each [j >= i] is the original element at [j + 1]. *)
Theorem RemoveMesh_spec (meshes : list MESH_OBJECT) (i : Z) :
  ((i < 0 \/ i >= Z.of_nat (length meshes)) -> RemoveMesh i meshes = meshes) /\
  (0 <= i < Z.of_nat (length meshes) ->
     length (RemoveMesh i meshes) = pred (length meshes) /\
     (forall j, (j < Z.to_nat i)%nat ->
                nth_error (RemoveMesh i meshes) j = nth_error meshes j) /\
     (forall j, (Z.to_nat i <= j)%nat ->
                nth_error (RemoveMesh i meshes) j = nth_error meshes (S j))).
Proof.
  unfold RemoveMesh. split.
  - intros H.
    destruct ((0 <=? i) && (i <? Z.of_nat (length meshes))) eqn:E; [|reflexivity].
    apply andb_true_iff in E as [E1 E2].
    apply Z.leb_le in E1. apply Z.ltb_lt in E2. lia.
  - intros H.
    replace ((0 <=? i) && (i <? Z.of_nat (length meshes))) with true
      by (symmetry; apply andb_true_iff; split; [apply Z.leb_le | apply Z.ltb_lt]; lia).
    assert (Hi : (Z.to_nat i < length meshes)%nat) by lia.
    split; [apply length_erase; exact Hi|].
    split; intros j Hj.
    + apply nth_error_erase_before; assumption.
    + apply nth_error_erase_after; assumption.
Qed.

(** Witness of [RemoveMesh_spec] on the three-instance scene: removing at
    -1 and at 3 leaves it unchanged; removing at 2 leaves 2 instances. *)
Lemma RemoveMesh_spec_witness :
  RemoveMesh (-1) three_meshes = three_meshes /\
  RemoveMesh 3 three_meshes = three_meshes /\
  length (RemoveMesh 2 three_meshes) = 2%nat /\
  nth_error (RemoveMesh 0 three_meshes) 0 = nth_error three_meshes 1.
Proof.
  split; [apply (proj1 (RemoveMesh_spec three_meshes (-1))); left; lia|].
  split; [apply (proj1 (RemoveMesh_spec three_meshes 3)); right; vm_compute; discriminate|].
  split.
  - exact (proj1 (proj2 (RemoveMesh_spec three_meshes 2) (conj (Z.le_0_2) (eq_refl)))).
  - apply (proj2 (proj2 (proj2 (RemoveMesh_spec three_meshes 0) (conj (Z.le_refl 0) eq_refl)))).
    apply Nat.le_refl.
Defined.

(** ** Loading a scene file *)

(** Claim C8. When the scene file cannot be opened, [DeserializeSceneData]
    writes "Could not open file: <name>" to the console and returns with the
    instance list exactly as it was. *)
Theorem DeserializeSceneData_open_failure (ReadFile : string -> string + aiScene)
    (fs : files) (filename : string) (s : scene) :
  fs filename = None ->
  DeserializeSceneData ReadFile fs filename s = log s ("Could not open file: " ++ filename) /\
  m_meshes (DeserializeSceneData ReadFile fs filename s) = m_meshes s.
Proof.
  intros H. unfold DeserializeSceneData. rewrite H. split; reflexivity.
Qed.

(** Witness of [DeserializeSceneData_open_failure]: loading a missing file
    over the three-instance scene. *)
Lemma DeserializeSceneData_open_failure_witness :
  no_files "scene.json"%string = None /\
  m_meshes (DeserializeSceneData no_assets no_files "scene.json"
              (mkScene three_meshes 1 [])) = three_meshes.
Proof.
  split; [reflexivity|].
  exact (proj2 (DeserializeSceneData_open_failure no_assets no_files "scene.json"
                  (mkScene three_meshes 1 []) eq_refl)).
Defined.

(** ** Records with no recognised tag *)

Lemma render_mesh_draws mgrRotating uninit mats reg mesh fr :
  fr_draws (snd (render_mesh mgrRotating uninit mats reg mesh fr)) =
  fr_draws fr ++ option_to_list (drawFunction mesh).
Proof.
  unfold render_mesh; simpl.
  destruct (drawFunction mesh); simpl; [reflexivity | rewrite app_nil_r; reflexivity].
Qed.

(** The render pass issues, in order, the draw action of each instance that
    has one, and nothing for an instance without one. *)
Lemma RenderMeshes_draws mgrRotating uninit mats reg meshes :
  forall fr,
    fr_draws (snd (RenderMeshes mgrRotating uninit mats reg meshes fr)) =
    fr_draws fr ++ flat_map (fun m => option_to_list (drawFunction m)) meshes.
Proof.
  induction meshes as [|m rest IH]; intros fr; cbn [RenderMeshes flat_map].
  - rewrite app_nil_r. reflexivity.
  - destruct (render_mesh mgrRotating uninit mats reg m fr) as [m1 fr1] eqn:E1.
    destruct (RenderMeshes mgrRotating uninit mats reg rest fr1) as [rest1 fr2] eqn:E2.
    cbn [snd].
    pose proof (IH fr1) as H2. rewrite E2 in H2. simpl in H2. rewrite H2.
    pose proof (render_mesh_draws mgrRotating uninit mats reg m fr) as H1.
    rewrite E1 in H1. simpl in H1. rewrite H1.
    rewrite <- app_assoc. reflexivity.
Qed.

Ltac split_forallb :=
  repeat match goal with
         | H : _ && _ = true |- _ => apply andb_prop in H; destruct H
         | H : negb _ = true |- _ => apply negb_true_iff in H
         end.

(** Claim C9. A serialized record whose tag contains none of the four
    imported-model substrings and none of the ten primitive substrings is
    restored as a bare record with no draw action (all its other fields kept)
    appended to the list; and the render pass, total on every list, issues
    the draw actions of exactly the instances that have one, so such an
    instance is never drawn. *)
Theorem deserialize_unrecognised_is_inert (ReadFile : string -> string + aiScene)
    (j : json_mesh) (s : scene) :
  forallb (fun n => negb (contains n (j_tag j))) (model_names ++ primitive_names) = true ->
  deserialize_mesh ReadFile j s =
    set_meshes s (m_meshes s ++
      [mkMesh (j_tag j) (j_rotation j) (j_position j) (j_scale j) (j_materialTag j)
              (j_textureTag j) (j_uvScale j) (j_shaderColor j) None (j_isRotating j)]) /\
  (forall mgrRotating uninit mats reg meshes fr,
     fr_draws (snd (RenderMeshes mgrRotating uninit mats reg meshes fr)) =
     fr_draws fr ++ flat_map (fun m => option_to_list (drawFunction m)) meshes).
Proof.
  intros H. split.
  - simpl in H. split_forallb.
    unfold deserialize_mesh, model_asset, primitive_of_tag.
    repeat match goal with H : contains _ _ = false |- _ => rewrite H; clear H end.
    reflexivity.
  - intros. apply RenderMeshes_draws.
Qed.

(** Witness of [deserialize_unrecognised_is_inert]: the "lamp" record is
    restored with no draw action. *)
Lemma deserialize_unrecognised_is_inert_witness :
  forallb (fun n => negb (contains n (j_tag lamp_record))) (model_names ++ primitive_names) = true /\
  option_map drawFunction
    (last (map Some (m_meshes (deserialize_mesh no_assets lamp_record (mkScene three_meshes 1 [])))) None)
  = Some None.
Proof.
  assert (H : forallb (fun n => negb (contains n (j_tag lamp_record)))
                (model_names ++ primitive_names) = true) by reflexivity.
  split; [exact H|].
  rewrite (proj1 (deserialize_unrecognised_is_inert no_assets lamp_record
                    (mkScene three_meshes 1 []) H)).
  reflexivity.
Defined.

(** ** The model matrix *)

Section ModelMatrix.

Local Open Scope R_scope.

Lemma sqrt_unit_axis :
  sqrt (1 * 1 + 0 * 0 + 0 * 0) = 1 /\ sqrt (0 * 0 + 1 * 1 + 0 * 0) = 1 /\
  sqrt (0 * 0 + 0 * 0 + 1 * 1) = 1.
Proof.
  repeat split; [replace (1 * 1 + 0 * 0 + 0 * 0) with 1 by ring
                |replace (0 * 0 + 1 * 1 + 0 * 0) with 1 by ring
                |replace (0 * 0 + 0 * 0 + 1 * 1) with 1 by ring]; apply sqrt_1.
Qed.

Lemma glm_rotate_x t c r : glm_rotate t (mkVec3 1 0 0) c r = spec_rotation_x t c r.
Proof.
  destruct sqrt_unit_axis as [Hx _].
  unfold glm_rotate, glm_rotate_m, spec_rotation_x, mat_identity; cbn [vx vy vz].
  rewrite Hx. destruct c, r; cbn; field.
Qed.

Lemma glm_rotate_y t c r : glm_rotate t (mkVec3 0 1 0) c r = spec_rotation_y t c r.
Proof.
  destruct sqrt_unit_axis as [_ [Hy _]].
  unfold glm_rotate, glm_rotate_m, spec_rotation_y, mat_identity; cbn [vx vy vz].
  rewrite Hy. destruct c, r; cbn; field.
Qed.

Lemma glm_rotate_z t c r : glm_rotate t (mkVec3 0 0 1) c r = spec_rotation_z t c r.
Proof.
  destruct sqrt_unit_axis as [_ [_ Hz]].
  unfold glm_rotate, glm_rotate_m, spec_rotation_z, mat_identity; cbn [vx vy vz].
  rewrite Hz. destruct c, r; cbn; field.
Qed.

Lemma mat_mul_ext (A A' B B' : mat4) :
  (forall c r, A c r = A' c r) -> (forall c r, B c r = B' c r) ->
  forall c r, mat_mul A B c r = mat_mul A' B' c r.
Proof. intros HA HB c r. unfold mat_mul. rewrite !HA, !HB. reflexivity. Qed.

Lemma mat_mul_assoc (A B C : mat4) c r :
  mat_mul (mat_mul A B) C c r = mat_mul A (mat_mul B C) c r.
Proof. unfold mat_mul. ring. Qed.

(** A right factor whose last column is [(0, 0, 0, 1)] keeps the last column. *)
Lemma mat_mul_col3 (A B : mat4) r :
  (forall r', B I3 r' = mat_identity I3 r') -> mat_mul A B I3 r = A I3 r.
Proof.
  intros HB. unfold mat_mul. rewrite !HB. unfold mat_identity; cbn. ring.
Qed.

Lemma mat_apply_origin (M : mat4) r : mat_apply M origin r = M I3 r.
Proof. unfold mat_apply, origin, point; cbn. ring. Qed.

Lemma model_matrix_col3 scaleXYZ rx ry rz positionXYZ r :
  model_matrix scaleXYZ rx ry rz positionXYZ I3 r = glm_translate positionXYZ I3 r.
Proof.
  unfold model_matrix.
  rewrite !mat_mul_col3; try reflexivity; intros r'; destruct r'; reflexivity.
Qed.

Lemma glm_radians_eq d : glm_radians d = d * PI / 180.
Proof. unfold glm_radians. field. Qed.

End ModelMatrix.

(** Claim C7. [SetTransformations] pushes to the "model" uniform the matrix
    [translation * rotationX * rotationY * rotationZ * scale], which equals
    the composition Translation x RotationX x RotationY x RotationZ x Scale of
    the textbook axis rotations by the angles converted from degrees to
    radians; it maps the origin to the position, in particular for scale
    (2,1,1), rotation (0,90,0) and position (5,0,0) to (5,0,0). *)
Theorem SetTransformations_model_matrix (scaleXYZ : vec3) (rx ry rz : float)
    (positionXYZ : vec3) (u : uniforms) :
  SetTransformations scaleXYZ rx ry rz positionXYZ u g_ModelName =
    Some (UMat4 (model_matrix scaleXYZ rx ry rz positionXYZ)) /\
  (forall c r, model_matrix scaleXYZ rx ry rz positionXYZ c r =
               spec_model_matrix scaleXYZ rx ry rz positionXYZ c r) /\
  (forall r, mat_apply (model_matrix scaleXYZ rx ry rz positionXYZ) origin r =
             point positionXYZ r) /\
  (forall r, mat_apply (model_matrix (mkVec3 2 1 1) 0 90 0 (mkVec3 5 0 0)) origin r =
             point (mkVec3 5 0 0) r)%R.
Proof.
  split; [reflexivity|].
  split; [|split; intros r; rewrite mat_apply_origin, model_matrix_col3;
             destruct r; reflexivity].
  intros c r. unfold model_matrix, spec_model_matrix.
  rewrite mat_mul_assoc, mat_mul_assoc, mat_mul_assoc.
  apply mat_mul_ext; [reflexivity|]. clear c r.
  apply mat_mul_ext; [intros c r; rewrite glm_radians_eq; apply glm_rotate_x|]. clear.
  apply mat_mul_ext; [intros c r; rewrite glm_radians_eq; apply glm_rotate_y|]. clear.
  apply mat_mul_ext; [intros c r; rewrite glm_radians_eq; apply glm_rotate_z|]. clear.
  reflexivity.
Qed.

(** ** Rotation of instances during the render pass *)

(** Claim C4 (evaluated). The rotation step of [RenderMeshes] is governed by
    the SceneManager member [isRotating] (false unless set), not by the
    instance's [isRotating]: with the member false, an instance whose own
    flag is true keeps Y-rotation 359.9; with the member true, an instance
    whose own flag is false advances from 359.9 to 0.1 (wrapped). *)
Theorem render_rotation_follows_manager_flag (uninit : OBJECT_MATERIAL)
    (mats : list OBJECT_MATERIAL) (reg : texture_registry) (fr : frame) :
  isRotating rotating_box = true /\
  vy (rotation (fst (render_mesh false uninit mats reg rotating_box fr))) = 359.9%R /\
  isRotating still_box = false /\
  vy (rotation (fst (render_mesh true uninit mats reg still_box fr))) = 0.1%R.
Proof.
  split; [reflexivity|]. split; [reflexivity|]. split; [reflexivity|].
  unfold render_mesh, advance_rotation, set_rotation; cbn [fst rotation vy still_box].
  destruct (Rlt_dec 360 (359.9 + 0.2)) as [H|H]; lra.
Qed.

(** ** Texture flag of the render pass *)

(** Claim C3 (evaluated). After steps 4 and 5 of the per-instance pipeline
    the "use texture" uniform is 0 (false) for every instance, because
    [SetShaderColor] runs after [SetShaderTexture] and clears it: the
    instance textured "floor", which resolves to slot 0, is drawn with the
    flag false although slot 0 was pushed as its sampler. *)
Theorem render_mesh_clears_texture_flag :
  (forall mgrRotating uninit mats reg mesh fr,
     fr_uniforms (snd (render_mesh mgrRotating uninit mats reg mesh fr)) g_UseTextureName
     = Some (UInt 0)) /\
  FindTextureSlot floor_registry (textureTag floor_plane) = 0 /\
  (forall uninit fr,
     fr_uniforms (snd (render_mesh false uninit DefineObjectMaterials floor_registry
                                   floor_plane fr)) g_TextureValueName = Some (UInt 0)).
Proof.
  split; [|split; [reflexivity|]].
  - intros. reflexivity.
  - intros. reflexivity.
Qed.

(** ** Material uniforms for an unknown tag *)

(** Claim C2 (evaluated). With the registry of [DefineObjectMaterials] and
    the tag "nonexistent", [SetShaderMaterial] still pushes the five material
    uniforms, with the indeterminate contents [uninit] of its local
    [material]; so a previously pushed value is overwritten, e.g. an
    ambientStrength of [ambientStrength uninit + 1]. *)
Theorem SetShaderMaterial_unknown_tag_overwrites (uninit : OBJECT_MATERIAL) (u : uniforms) :
  let u' := SetShaderMaterial uninit DefineObjectMaterials "nonexistent" u in
  u' "material.ambientColor"%string = Some (UVec3 (ambientColor uninit)) /\
  u' "material.ambientStrength"%string = Some (UFloat (ambientStrength uninit)) /\
  u' "material.diffuseColor"%string = Some (UVec3 (diffuseColor uninit)) /\
  u' "material.specularColor"%string = Some (UVec3 (specularColor uninit)) /\
  u' "material.shininess"%string = Some (UFloat (shininess uninit)) /\
  (let prior := set_uniform "material.ambientStrength"
                  (UFloat (ambientStrength uninit + 1)) no_uniforms in
   SetShaderMaterial uninit DefineObjectMaterials "nonexistent" prior
     "material.ambientStrength"%string
   <> prior "material.ambientStrength"%string).
Proof.
  cbn zeta. repeat split; try reflexivity.
  cbv [SetShaderMaterial FindMaterial]. cbn.
  intros H. injection H. lra.
Qed.

(** ** Texture registration beyond 16 *)

(** Counterexample to claim C5: with 16 textures registered, loading a
    decodable RGB image does not return [false] with the registry unchanged:
    the registration store runs past the end of [m_textureIDs]. *)
Lemma CreateGLTexture_17th_counterexample :
  m_loadedTextures sixteen_textures = 16 /\
  length (m_textureIDs sixteen_textures) = 16%nat /\
  CreateGLTexture decode_rgb 17 "extra.png" "extra" sixteen_textures = None /\
  CreateGLTexture decode_rgb 17 "extra.png" "extra" sixteen_textures
    <> Some (false, sixteen_textures).
Proof.
  split; [reflexivity|]. split; [reflexivity|]. split; [reflexivity|].
  vm_compute. discriminate.
Qed.

(** Claim C5, as amended. With 16 textures registered (count 16, 16 array
    entries): a request whose image does not decode, or decodes with a
    channel count other than 3 and 4, returns [false] and leaves the registry
    unchanged; a request whose image decodes as RGB or RGBA has no defined
    result, the registration being stored at index 16 of the 16-entry array. *)
Theorem CreateGLTexture_full_registry (stbi_load : string -> option image)
    (textureID : Z) (filename tag0 : string) (reg : texture_registry) :
  m_loadedTextures reg = 16 -> length (m_textureIDs reg) = 16%nat ->
  CreateGLTexture stbi_load textureID filename tag0 reg =
    match stbi_load filename with
    | Some img =>
        if (colorChannels img =? 3) || (colorChannels img =? 4)
        then None else Some (false, reg)
    | None => Some (false, reg)
    end.
Proof.
  intros Hn Hlen. unfold CreateGLTexture.
  destruct (stbi_load filename) as [img|]; [|reflexivity].
  destruct ((colorChannels img =? 3) || (colorChannels img =? 4)); [|reflexivity].
  unfold array_store. rewrite Hn, Hlen. reflexivity.
Qed.

(** Witness of [CreateGLTexture_full_registry] on [sixteen_textures]. *)
Lemma CreateGLTexture_full_registry_witness :
  m_loadedTextures sixteen_textures = 16 /\
  length (m_textureIDs sixteen_textures) = 16%nat /\
  CreateGLTexture (fun _ => None) 17 "missing.png" "extra" sixteen_textures
    = Some (false, sixteen_textures).
Proof.
  split; [reflexivity|]. split; [reflexivity|].
  exact (CreateGLTexture_full_registry (fun _ => None) 17 "missing.png" "extra"
           sixteen_textures eq_refl eq_refl).
Defined.

(** ** Save and load round trip *)







(** * Further properties of the scene manager *)

(** ** Texture lookup *)

Lemma find_slot_loop_spec (entries : list TEXTURE_INFO) (i loaded : Z) (t : string) :
  0 <= i ->
  (find_slot_loop entries i loaded t = -1 /\
   forall j e, i + Z.of_nat j < loaded -> nth_error entries j = Some e -> ttag e <> t) \/
  (exists j e, find_slot_loop entries i loaded t = i + Z.of_nat j /\
     i + Z.of_nat j < loaded /\ nth_error entries j = Some e /\ ttag e = t /\
     forall j' e', (j' < j)%nat -> nth_error entries j' = Some e' -> ttag e' <> t).
Proof.
  revert i. induction entries as [|e rest IH]; intros i Hi; simpl.
  - left. split; [reflexivity|]. intros j e _ H. destruct j; discriminate.
  - destruct (i <? loaded) eqn:Hl.
    + apply Z.ltb_lt in Hl.
      destruct (String.eqb (ttag e) t) eqn:Ht.
      * apply String.eqb_eq in Ht. right. exists O, e.
        split; [lia|]. split; [lia|]. split; [reflexivity|]. split; [exact Ht|].
        intros j' e' Hj'. lia.
      * apply String.eqb_neq in Ht.
        destruct (IH (i + 1) ltac:(lia)) as [[H1 H2] | [j [e' [H1 [H2 [H3 [H4 H5]]]]]]].
        -- left. split; [exact H1|]. intros [|j] e0 Hj He0.
           ++ injection He0 as <-. exact Ht.
           ++ apply (H2 j); [lia | exact He0].
        -- right. exists (S j), e'. rewrite H1.
           split; [lia|]. split; [lia|]. split; [exact H3|]. split; [exact H4|].
           intros [|j'] e0 Hj' He0.
           ++ injection He0 as <-. exact Ht.
           ++ apply (H5 j'); [lia | exact He0].
    + left. split; [reflexivity|]. apply Z.ltb_ge in Hl. intros j e0 Hj _. lia.
Qed.

(** [FindTextureSlot] returns the first slot below the loaded count whose tag
    is the requested one, or [-1] when no loaded slot carries the tag (in
    particular on an empty registry); a later duplicate of a tag is never
    found. *)
Theorem FindTextureSlot_first_match (reg : texture_registry) (t : string) :
  m_loadedTextures reg <= Z.of_nat (length (m_textureIDs reg)) ->
  (FindTextureSlot reg t = -1 /\
   forall j e, Z.of_nat j < m_loadedTextures reg ->
               nth_error (m_textureIDs reg) j = Some e -> ttag e <> t) \/
  (exists j e, FindTextureSlot reg t = Z.of_nat j /\ Z.of_nat j < m_loadedTextures reg /\
     nth_error (m_textureIDs reg) j = Some e /\ ttag e = t /\
     forall j' e', (j' < j)%nat -> nth_error (m_textureIDs reg) j' = Some e' -> ttag e' <> t).
Proof.
  intros _. unfold FindTextureSlot.
  destruct (find_slot_loop_spec (m_textureIDs reg) 0 (m_loadedTextures reg) t (Z.le_refl 0))
    as [[H1 H2] | [j [e [H1 [H2 H3]]]]].
  - left. split; [exact H1|]. intros j e Hj. apply H2. lia.
  - right. exists j, e. split; [lia|]. split; [lia|]. exact H3.
Qed.

(** Witness of [FindTextureSlot_first_match] on the sixteen-texture
    registry and the tag "t3". *)
Lemma FindTextureSlot_first_match_witness :
  m_loadedTextures sixteen_textures <= Z.of_nat (length (m_textureIDs sixteen_textures)) /\
  ((FindTextureSlot sixteen_textures "t3" = -1 /\
    forall j e, Z.of_nat j < m_loadedTextures sixteen_textures ->
                nth_error (m_textureIDs sixteen_textures) j = Some e -> ttag e <> "t3"%string) \/
   (exists j e, FindTextureSlot sixteen_textures "t3" = Z.of_nat j /\
      Z.of_nat j < m_loadedTextures sixteen_textures /\
      nth_error (m_textureIDs sixteen_textures) j = Some e /\ ttag e = "t3"%string /\
      forall j' e', (j' < j)%nat -> nth_error (m_textureIDs sixteen_textures) j' = Some e' ->
                    ttag e' <> "t3"%string)).
Proof.
  assert (H : m_loadedTextures sixteen_textures
              <= Z.of_nat (length (m_textureIDs sixteen_textures))) by (vm_compute; discriminate).
  split; [exact H|]. exact (FindTextureSlot_first_match sixteen_textures "t3" H).
Defined.

Lemma bind_loop_other (entries : list TEXTURE_INFO) (i loaded : Z) (units : texture_units) (k : Z) :
  (k < i \/ loaded <= k) -> bind_loop entries i loaded units k = units k.
Proof.
  revert i units. induction entries as [|e rest IH]; intros i units Hk; simpl; [reflexivity|].
  destruct (i <? loaded) eqn:Hl; [|reflexivity].
  apply Z.ltb_lt in Hl.
  rewrite IH by lia. rewrite (proj2 (Z.eqb_neq k i)) by lia. reflexivity.
Qed.

Lemma bind_loop_nth (entries : list TEXTURE_INFO) (i loaded : Z) (units : texture_units)
    (j : nat) (e : TEXTURE_INFO) :
  nth_error entries j = Some e -> i + Z.of_nat j < loaded ->
  bind_loop entries i loaded units (i + Z.of_nat j) = Some (ID e).
Proof.
  revert i j units. induction entries as [|e0 rest IH]; intros i j units He Hj;
    [destruct j; discriminate|].
  simpl. rewrite (proj2 (Z.ltb_lt i loaded)) by lia.
  destruct j as [|j].
  - injection He as <-. rewrite bind_loop_other by lia.
    rewrite (proj2 (Z.eqb_eq _ _)) by lia. reflexivity.
  - replace (i + Z.of_nat (S j)) with (i + 1 + Z.of_nat j) by lia.
    apply IH; [exact He | lia].
Qed.

Lemma find_id_loop_spec (entries : list TEXTURE_INFO) (i loaded : Z) (t : string) :
  0 <= i ->
  (find_slot_loop entries i loaded t = -1 /\ find_id_loop entries i loaded t = -1) \/
  (exists j e, find_slot_loop entries i loaded t = i + Z.of_nat j /\
     i + Z.of_nat j < loaded /\ nth_error entries j = Some e /\ ttag e = t /\
     find_id_loop entries i loaded t = int_of_uint32 (ID e)).
Proof.
  revert i. induction entries as [|e rest IH]; intros i Hi; simpl; [left; split; reflexivity|].
  destruct (i <? loaded) eqn:Hl; [|left; split; reflexivity].
  apply Z.ltb_lt in Hl.
  destruct (String.eqb (ttag e) t) eqn:Ht.
  - right. exists O, e. apply String.eqb_eq in Ht.
    split; [lia|]. split; [lia|]. split; [reflexivity|]. split; [exact Ht|reflexivity].
  - destruct (IH (i + 1) ltac:(lia)) as [H | [j [e' [H1 [H2 H3]]]]]; [left; exact H|].
    right. exists (S j), e'. rewrite H1. split; [lia|]. split; [lia|]. exact H3.
Qed.

(** For a tag carried by a loaded slot, [FindTextureSlot] returns a loaded
    slot with that tag (the sampler [SetShaderTexture] pushes),
    [FindTextureID] returns the ID of that slot, and after [BindGLTextures]
    the texture unit of that slot holds that texture. For a tag no loaded
    slot carries, both return [-1]. *)
Theorem FindTextureID_bound_unit (reg : texture_registry) (t : string) (units : texture_units) :
  m_loadedTextures reg <= Z.of_nat (length (m_textureIDs reg)) ->
  ((exists j e, Z.of_nat j < m_loadedTextures reg /\
                nth_error (m_textureIDs reg) j = Some e /\ ttag e = t) ->
   exists e, 0 <= FindTextureSlot reg t < m_loadedTextures reg /\
     nth_error (m_textureIDs reg) (Z.to_nat (FindTextureSlot reg t)) = Some e /\
     ttag e = t /\ FindTextureID reg t = int_of_uint32 (ID e) /\
     BindGLTextures reg units (FindTextureSlot reg t) = Some (ID e)) /\
  ((forall j e, Z.of_nat j < m_loadedTextures reg ->
                nth_error (m_textureIDs reg) j = Some e -> ttag e <> t) ->
   FindTextureSlot reg t = -1 /\ FindTextureID reg t = -1).
Proof.
  intros _. unfold FindTextureSlot, FindTextureID, BindGLTextures.
  destruct (find_slot_loop_spec (m_textureIDs reg) 0 (m_loadedTextures reg) t (Z.le_refl 0))
    as [[S1 S2] | [j [e [S1 [S2 [S3 [S4 _]]]]]]];
  destruct (find_id_loop_spec (m_textureIDs reg) 0 (m_loadedTextures reg) t (Z.le_refl 0))
    as [[I1 I2] | [j' [e' [I1 [I2 [I3 [I4 I5]]]]]]].
  - split.
    + intros [j [e [Hj [He Ht]]]]. exfalso. apply (S2 j e); [lia | exact He | exact Ht].
    + intros _. split; assumption.
  - rewrite S1 in I1. lia.
  - rewrite S1 in I1. lia.
  - split.
    + intros _. exists e'. rewrite I1. replace (0 + Z.of_nat j') with (Z.of_nat j') by lia.
      rewrite Nat2Z.id.
      split; [lia|]. split; [exact I3|]. split; [exact I4|]. split; [exact I5|].
      replace (Z.of_nat j') with (0 + Z.of_nat j') by lia.
      apply bind_loop_nth; assumption.
    + intros H. exfalso. apply (H j e); [lia | exact S3 | exact S4].
Qed.

(** Witness of [FindTextureID_bound_unit] on the floor registry and the
    tag "floor". *)
Lemma FindTextureID_bound_unit_witness :
  m_loadedTextures floor_registry <= Z.of_nat (length (m_textureIDs floor_registry)) /\
  exists e, 0 <= FindTextureSlot floor_registry "floor" < m_loadedTextures floor_registry /\
    nth_error (m_textureIDs floor_registry) (Z.to_nat (FindTextureSlot floor_registry "floor"))
      = Some e /\
    ttag e = "floor"%string /\ FindTextureID floor_registry "floor" = int_of_uint32 (ID e) /\
    BindGLTextures floor_registry (fun _ => None) (FindTextureSlot floor_registry "floor")
      = Some (ID e).
Proof.
  assert (H : m_loadedTextures floor_registry
              <= Z.of_nat (length (m_textureIDs floor_registry))) by (vm_compute; discriminate).
  split; [exact H|].
  apply (proj1 (FindTextureID_bound_unit floor_registry "floor" (fun _ => None) H)).
  exists O, (mkTexture "floor" 1). split; [reflexivity|]. split; reflexivity.
Defined.

(** ** Texture registration *)

Lemma find_slot_loop_at_end (entries : list TEXTURE_INFO) (i loaded : Z) (t : string) :
  loaded <= i -> find_slot_loop entries i loaded t = -1.
Proof.
  intros H. destruct entries; simpl; [reflexivity|].
  rewrite (proj2 (Z.ltb_ge i loaded)) by lia. reflexivity.
Qed.

Lemma find_slot_loop_app_cut (l1 l2 : list TEXTURE_INFO) (i loaded : Z) (t : string) :
  loaded <= i + Z.of_nat (length l1) ->
  find_slot_loop (l1 ++ l2) i loaded t = find_slot_loop l1 i loaded t.
Proof.
  revert i. induction l1 as [|e rest IH]; intros i H; simpl.
  - apply find_slot_loop_at_end. simpl in H. lia.
  - destruct (i <? loaded); [|reflexivity].
    destruct (String.eqb (ttag e) t); [reflexivity|].
    apply IH. simpl in H. lia.
Qed.

Lemma find_slot_loop_snoc (l1 : list TEXTURE_INFO) (x : TEXTURE_INFO) (l2 : list TEXTURE_INFO)
    (i c : Z) (t : string) :
  0 <= i -> c = i + Z.of_nat (length l1) ->
  find_slot_loop (l1 ++ x :: l2) i (c + 1) t =
    if find_slot_loop l1 i c t =? -1
    then (if String.eqb (ttag x) t then c else -1)
    else find_slot_loop l1 i c t.
Proof.
  revert i. induction l1 as [|e rest IH]; intros i Hi Hc; simpl in Hc |- *.
  - rewrite (proj2 (Z.ltb_lt i (c + 1))) by lia.
    destruct (String.eqb (ttag x) t); [lia|].
    apply find_slot_loop_at_end. lia.
  - rewrite (proj2 (Z.ltb_lt i (c + 1))) by lia.
    rewrite (proj2 (Z.ltb_lt i c)) by lia.
    destruct (String.eqb (ttag e) t).
    + rewrite (proj2 (Z.eqb_neq i (-1))) by lia. reflexivity.
    + apply IH; lia.
Qed.

(** [CreateGLTexture] with an image that decodes as RGB or RGBA, below a full
    array: it returns [true], stores the tag and the texture name in slot
    [m_loadedTextures] (the other slots unchanged) and increments the count.
    Afterwards [FindTextureSlot] finds the new tag at the old count unless
    the tag was already loaded, in which case the earlier slot still wins;
    every other lookup is unchanged. *)
Theorem CreateGLTexture_register (stbi_load : string -> option image) (textureID : Z)
    (filename tag0 : string) (reg : texture_registry) (img : image) :
  stbi_load filename = Some img ->
  (colorChannels img = 3 \/ colorChannels img = 4) ->
  0 <= m_loadedTextures reg < Z.of_nat (length (m_textureIDs reg)) ->
  exists reg',
    CreateGLTexture stbi_load textureID filename tag0 reg = Some (true, reg') /\
    m_loadedTextures reg' = m_loadedTextures reg + 1 /\
    m_textureIDs reg' =
      firstn (Z.to_nat (m_loadedTextures reg)) (m_textureIDs reg) ++
      mkTexture tag0 textureID :: skipn (S (Z.to_nat (m_loadedTextures reg))) (m_textureIDs reg) /\
    forall t, FindTextureSlot reg' t =
      if FindTextureSlot reg t =? -1
      then (if String.eqb tag0 t then m_loadedTextures reg else -1)
      else FindTextureSlot reg t.
Proof.
  intros Hload Hch Hn. unfold CreateGLTexture. rewrite Hload.
  replace ((colorChannels img =? 3) || (colorChannels img =? 4)) with true
    by (destruct Hch as [-> | ->]; reflexivity).
  unfold array_store.
  rewrite (proj2 (Z.leb_le 0 _)) by lia. rewrite (proj2 (Z.ltb_lt _ _)) by lia.
  eexists. split; [reflexivity|]. split; [reflexivity|]. split; [reflexivity|].
  intros t. unfold FindTextureSlot; cbn [m_textureIDs m_loadedTextures].
  set (c := m_loadedTextures reg).
  assert (Hlen : length (firstn (Z.to_nat c) (m_textureIDs reg)) = Z.to_nat c)
    by (apply firstn_length_le; lia).
  rewrite (find_slot_loop_snoc _ _ _ 0 c t (Z.le_refl 0)) by lia.
  assert (Hcut : find_slot_loop (m_textureIDs reg) 0 c t =
                 find_slot_loop (firstn (Z.to_nat c) (m_textureIDs reg)) 0 c t).
  { rewrite <- (firstn_skipn (Z.to_nat c) (m_textureIDs reg)) at 1.
    apply find_slot_loop_app_cut. lia. }
  rewrite Hcut. reflexivity.
Qed.

(** Witness of [CreateGLTexture_register]: registering "wall" in a
    16-entry array holding the "floor" texture. *)
Lemma CreateGLTexture_register_witness :
  decode_rgb "wall.png" = Some (mkImage 64 64 3) /\
  exists reg',
    CreateGLTexture decode_rgb 2 "wall.png" "wall"
      (mkRegistry 1 (m_textureIDs sixteen_textures)) = Some (true, reg') /\
    m_loadedTextures reg' = 2 /\
    m_textureIDs reg' =
      firstn 1 (m_textureIDs sixteen_textures) ++
      mkTexture "wall" 2 :: skipn 2 (m_textureIDs sixteen_textures) /\
    forall t, FindTextureSlot reg' t =
      if FindTextureSlot (mkRegistry 1 (m_textureIDs sixteen_textures)) t =? -1
      then (if String.eqb "wall" t then 1 else -1)
      else FindTextureSlot (mkRegistry 1 (m_textureIDs sixteen_textures)) t.
Proof.
  split; [reflexivity|].
  exact (CreateGLTexture_register decode_rgb 2 "wall.png" "wall"
           (mkRegistry 1 (m_textureIDs sixteen_textures)) (mkImage 64 64 3)
           eq_refl (or_introl eq_refl) (conj (Z.le_0_1) eq_refl)).
Defined.

(** ** Texture release *)

Lemma find_slot_loop_tags (l l' : list TEXTURE_INFO) (i loaded : Z) (t : string) :
  map ttag l = map ttag l' -> find_slot_loop l i loaded t = find_slot_loop l' i loaded t.
Proof.
  revert l' i. induction l as [|e rest IH]; intros [|e' rest'] i H; try discriminate; simpl;
    [reflexivity|].
  injection H as Ht Hr. rewrite Ht.
  destruct (i <? loaded); [|reflexivity].
  destruct (String.eqb (ttag e') t); [reflexivity|]. apply IH. exact Hr.
Qed.

Lemma destroy_loop_spec (loaded : Z) (entries : list TEXTURE_INFO) :
  forall i next,
    0 <= i -> loaded <= i + Z.of_nat (length entries) ->
    map ttag (fst (destroy_loop entries i loaded next)) = map ttag entries /\
    snd (destroy_loop entries i loaded next) = next + Z.max 0 (loaded - i) /\
    (forall j, i + Z.of_nat j < loaded ->
       option_map ID (nth_error (fst (destroy_loop entries i loaded next)) j)
       = Some (next + Z.of_nat j)) /\
    (forall j, loaded <= i + Z.of_nat j ->
       nth_error (fst (destroy_loop entries i loaded next)) j = nth_error entries j).
Proof.
  induction entries as [|e rest IH]; intros i next Hi Hn; simpl in Hn |- *.
  - split; [reflexivity|]. split; [lia|]. split; [intros j Hj; lia|]. intros; reflexivity.
  - destruct (i <? loaded) eqn:Hl.
    + apply Z.ltb_lt in Hl.
      destruct (IH (i + 1) (next + 1) ltac:(lia) ltac:(lia)) as [T [N [A B]]].
      destruct (destroy_loop rest (i + 1) loaded (next + 1)) as [rest' next'] eqn:E.
      cbn [fst snd] in *.
      split; [simpl; rewrite T; reflexivity|].
      split; [lia|].
      split.
      * intros [|j] Hj; simpl; [f_equal; lia|].
        rewrite A by lia. f_equal. lia.
      * intros [|j] Hj; simpl; [lia|]. apply B. lia.
    + apply Z.ltb_ge in Hl. cbn [fst snd].
      split; [reflexivity|]. split; [lia|]. split; [intros j Hj; lia|]. intros; reflexivity.
Qed.

(** [DestroyGLTextures] releases nothing: it keeps the loaded count and
    every tag, so every [FindTextureSlot] lookup is unchanged, and overwrites
    the ID of each loaded slot [j] with a freshly generated name
    ([next + j]); the slots from the count on keep their entries. *)
Theorem DestroyGLTextures_keeps_registry (reg : texture_registry) (next : Z) :
  0 <= m_loadedTextures reg <= Z.of_nat (length (m_textureIDs reg)) ->
  m_loadedTextures (fst (DestroyGLTextures reg next)) = m_loadedTextures reg /\
  map ttag (m_textureIDs (fst (DestroyGLTextures reg next))) = map ttag (m_textureIDs reg) /\
  (forall t, FindTextureSlot (fst (DestroyGLTextures reg next)) t = FindTextureSlot reg t) /\
  snd (DestroyGLTextures reg next) = next + m_loadedTextures reg /\
  (forall j, Z.of_nat j < m_loadedTextures reg ->
     option_map ID (nth_error (m_textureIDs (fst (DestroyGLTextures reg next))) j)
     = Some (next + Z.of_nat j)) /\
  (forall j, m_loadedTextures reg <= Z.of_nat j ->
     nth_error (m_textureIDs (fst (DestroyGLTextures reg next))) j
     = nth_error (m_textureIDs reg) j).
Proof.
  intros Hn.
  destruct (destroy_loop_spec (m_loadedTextures reg) (m_textureIDs reg) 0 next
              (Z.le_refl 0) ltac:(lia)) as [T [N [A B]]].
  unfold DestroyGLTextures.
  destruct (destroy_loop (m_textureIDs reg) 0 (m_loadedTextures reg) next) as [arr next'] eqn:E.
  cbn [fst snd m_loadedTextures m_textureIDs] in *.
  split; [reflexivity|]. split; [exact T|].
  split; [intros t; unfold FindTextureSlot; apply find_slot_loop_tags; exact T|].
  split; [lia|]. split.
  - intros j Hj. apply A. lia.
  - intros j Hj. apply B. lia.
Qed.

(** Witness of [DestroyGLTextures_keeps_registry] on the sixteen-texture
    registry. *)
Lemma DestroyGLTextures_keeps_registry_witness :
  0 <= m_loadedTextures sixteen_textures <= Z.of_nat (length (m_textureIDs sixteen_textures)) /\
  FindTextureSlot (fst (DestroyGLTextures sixteen_textures 100)) "t5"
    = FindTextureSlot sixteen_textures "t5".
Proof.
  assert (H : 0 <= m_loadedTextures sixteen_textures
              <= Z.of_nat (length (m_textureIDs sixteen_textures))) by (vm_compute; split; discriminate).
  split; [exact H|].
  exact (proj1 (proj2 (proj2 (DestroyGLTextures_keeps_registry sixteen_textures 100 H))) "t5"%string).
Defined.

(** ** Material lookup *)

Lemma find_material_loop_first (pre post : list OBJECT_MATERIAL) (m : OBJECT_MATERIAL)
    (t : string) (material : OBJECT_MATERIAL) :
  Forall (fun m' => mtag m' <> t) pre -> mtag m = t ->
  find_material_loop (pre ++ m :: post) t material =
    (true, mkMaterial (ambientStrength m) (ambientColor m) (diffuseColor m)
                      (specularColor m) (shininess m) (mtag material)).
Proof.
  intros Hpre Hm. induction Hpre as [|m' pre Hm' _ IH]; simpl.
  - rewrite (proj2 (String.eqb_eq _ _) Hm). reflexivity.
  - rewrite (proj2 (String.eqb_neq _ _) Hm'). exact IH.
Qed.

(** [SetShaderMaterial] with a tag present in the registry pushes the five
    lighting fields of the first material carrying that tag (an earlier
    material with another tag, or a later one with the same tag, has no
    effect), and leaves every other uniform as it was. *)
Theorem SetShaderMaterial_first_match (uninit : OBJECT_MATERIAL)
    (pre post : list OBJECT_MATERIAL) (m : OBJECT_MATERIAL) (t : string) (u : uniforms) :
  Forall (fun m' => mtag m' <> t) pre -> mtag m = t ->
  let u' := SetShaderMaterial uninit (pre ++ m :: post) t u in
  u' "material.ambientColor"%string = Some (UVec3 (ambientColor m)) /\
  u' "material.ambientStrength"%string = Some (UFloat (ambientStrength m)) /\
  u' "material.diffuseColor"%string = Some (UVec3 (diffuseColor m)) /\
  u' "material.specularColor"%string = Some (UVec3 (specularColor m)) /\
  u' "material.shininess"%string = Some (UFloat (shininess m)) /\
  (forall n, ~ In n ["material.ambientColor"; "material.ambientStrength";
                      "material.diffuseColor"; "material.specularColor";
                      "material.shininess"]%string -> u' n = u n).
Proof.
  intros Hpre Hm u'. subst u'.
  unfold SetShaderMaterial.
  replace (Nat.ltb 0 (length (pre ++ m :: post))) with true
    by (symmetry; apply Nat.ltb_lt; rewrite length_app; simpl; lia).
  unfold FindMaterial.
  replace (match pre ++ m :: post with
           | [] => (false, uninit)
           | _ :: _ => let '(_, m0) := find_material_loop (pre ++ m :: post) t uninit in (true, m0)
           end)
    with (true, mkMaterial (ambientStrength m) (ambientColor m) (diffuseColor m)
                           (specularColor m) (shininess m) (mtag uninit))
    by (rewrite find_material_loop_first by assumption; destruct pre; reflexivity).
  cbn [shininess specularColor diffuseColor ambientStrength ambientColor].
  repeat split; try reflexivity.
  intros n Hn. unfold set_uniform.
  repeat match goal with
         | |- context [String.eqb n ?x] =>
             let E := fresh "E" in
             destruct (String.eqb n x) eqn:E;
             [apply String.eqb_eq in E; subst n; exfalso; apply Hn; simpl; tauto|]
         end.
  reflexivity.
Qed.

(** Witness of [SetShaderMaterial_first_match]: the "wood" material of
    [DefineObjectMaterials], behind "default" and "metal". *)
Lemma SetShaderMaterial_first_match_witness :
  Forall (fun m' => mtag m' <> "wood"%string) (firstn 2 DefineObjectMaterials) /\
  SetShaderMaterial (mkMaterial 0 zero3 zero3 zero3 0 "") DefineObjectMaterials "wood"
    no_uniforms "material.shininess"%string = Some (UFloat 22%R).
Proof.
  assert (H : Forall (fun m' => mtag m' <> "wood"%string) (firstn 2 DefineObjectMaterials)).
  { repeat constructor; simpl; discriminate. }
  split; [exact H|].
  exact (proj1 (proj2 (proj2 (proj2 (proj2
    (SetShaderMaterial_first_match (mkMaterial 0 zero3 zero3 zero3 0 "")
       (firstn 2 DefineObjectMaterials) (skipn 3 DefineObjectMaterials)
       (nth 2 DefineObjectMaterials (mkMaterial 0 zero3 zero3 zero3 0 ""))
       "wood" no_uniforms H eq_refl)))))).
Defined.

(** ** The render pass and the instance list *)

Lemma render_mesh_fst mgrRotating uninit mats reg mesh fr :
  fst (render_mesh mgrRotating uninit mats reg mesh fr) =
  set_rotation mesh (advance_rotation mgrRotating (rotation mesh)).
Proof. reflexivity. Qed.

(** [RenderMeshes] changes nothing in the instance list but the rotations:
    each instance comes back with its rotation advanced by the step of the
    manager's flag, in the same order; with the manager's flag false the list
    is returned unchanged. *)
Theorem RenderMeshes_only_rotation (mgrRotating : bool) (uninit : OBJECT_MATERIAL)
    (mats : list OBJECT_MATERIAL) (reg : texture_registry) (meshes : list MESH_OBJECT)
    (fr : frame) :
  fst (RenderMeshes mgrRotating uninit mats reg meshes fr) =
    map (fun m => set_rotation m (advance_rotation mgrRotating (rotation m))) meshes /\
  fst (RenderMeshes false uninit mats reg meshes fr) = meshes.
Proof.
  assert (Hmap : forall b fr,
    fst (RenderMeshes b uninit mats reg meshes fr) =
    map (fun m => set_rotation m (advance_rotation b (rotation m))) meshes).
  { intros b. induction meshes as [|m rest IH]; intros fr0; cbn [RenderMeshes map];
      [reflexivity|].
    destruct (render_mesh b uninit mats reg m fr0) as [m1 fr1] eqn:E1.
    destruct (RenderMeshes b uninit mats reg rest fr1) as [rest1 fr2] eqn:E2.
    cbn [fst]. pose proof (IH fr1) as H2. rewrite E2 in H2. cbn [fst] in H2. rewrite H2.
    pose proof (render_mesh_fst b uninit mats reg m fr0) as H1. rewrite E1 in H1.
    cbn [fst] in H1. rewrite H1. reflexivity. }
  split; [apply Hmap|]. rewrite Hmap.
  rewrite <- (map_id meshes) at 2. apply map_ext.
  intros [t r p s mt tt uv c d ir]. reflexivity.
Qed.



(** ** The mesh editor *)

(** The "Delete Mesh" button of the GUI: with no valid selection (the
    initial [-1]) it removes nothing and selects 0; with a valid selection it
    removes exactly that instance (the instances before and after it stay,
    in order) and the new selection is a valid index of the remaining list,
    or the list is empty. The selection is never negative
    afterwards. *)
Theorem delete_selected_index (meshes : list MESH_OBJECT) (curMeshIndex : Z) :
  0 <= snd (delete_selected meshes curMeshIndex) /\
  (curMeshIndex < 0 -> delete_selected meshes curMeshIndex = (meshes, 0)) /\
  (0 <= curMeshIndex < Z.of_nat (length meshes) ->
     fst (delete_selected meshes curMeshIndex) =
       firstn (Z.to_nat curMeshIndex) meshes ++ skipn (S (Z.to_nat curMeshIndex)) meshes /\
     length (fst (delete_selected meshes curMeshIndex)) = pred (length meshes) /\
     (fst (delete_selected meshes curMeshIndex) = [] \/
      snd (delete_selected meshes curMeshIndex)
        < Z.of_nat (length (fst (delete_selected meshes curMeshIndex))))).
Proof.
  unfold delete_selected; cbn [fst snd].
  split; [lia|]. split.
  - intros H. unfold RemoveMesh.
    rewrite (proj2 (Z.leb_gt 0 curMeshIndex)) by lia. f_equal. lia.
  - intros H. unfold RemoveMesh.
    replace ((0 <=? curMeshIndex) && (curMeshIndex <? Z.of_nat (length meshes))) with true
      by (symmetry; apply andb_true_iff; split; [apply Z.leb_le | apply Z.ltb_lt]; lia).
    assert (L : length (erase meshes (Z.to_nat curMeshIndex)) = pred (length meshes))
      by (apply length_erase; lia).
    split; [reflexivity|]. split; [exact L|].
    destruct (erase meshes (Z.to_nat curMeshIndex)) as [|x l] eqn:E; [left; reflexivity|].
    right. cbn [length] in L |- *. lia.
Qed.

(** Removing at the index of the last instance undoes [AddMeshToScene] (and
    so any of the add operations of the GUI). *)
Theorem RemoveMesh_AddMeshToScene (tag0 : string) (position0 rotation0 scale0 : vec3)
    (materialTag0 textureTag0 : string) (uvScale0 : vec2) (shaderColor0 : vec4)
    (drawFunction0 : option draw_action) (meshes : list MESH_OBJECT) :
  RemoveMesh (Z.of_nat (length meshes))
    (AddMeshToScene tag0 position0 rotation0 scale0 materialTag0 textureTag0 uvScale0
                    shaderColor0 drawFunction0 meshes) = meshes.
Proof.
  unfold RemoveMesh, AddMeshToScene. rewrite length_app. cbn [length].
  replace ((0 <=? Z.of_nat (length meshes)) &&
           (Z.of_nat (length meshes) <? Z.of_nat (length meshes + 1))) with true
    by (symmetry; apply andb_true_iff; split; [apply Z.leb_le | apply Z.ltb_lt]; lia).
  unfold erase. rewrite Nat2Z.id.
  rewrite firstn_app, firstn_all, Nat.sub_diag, skipn_app, Nat.sub_succ_l, Nat.sub_diag by lia.
  rewrite skipn_all2 by lia. simpl. rewrite !app_nil_r. reflexivity.
Qed.

(** ** Model import *)

Lemma set_back_isRotating_snoc (b : bool) (l : list MESH_OBJECT) (m : MESH_OBJECT) :
  set_back_isRotating b (l ++ [m]) =
  l ++ [mkMesh (tag m) (rotation m) (position m) (scale m) (materialTag m)
               (textureTag m) (uvScale m) (shaderColor m) (drawFunction m) b].
Proof.
  induction l as [|x l IH]; [reflexivity|].
  cbn [app]. rewrite <- IH. destruct l; reflexivity.
Qed.

Section ImportFacts.

Variables (position0 rotation0 scale0 : vec3) (materialTag0 textureTag0 : string)
          (uvScale0 : vec2) (shaderColor0 : vec4) (isRotating0 : bool).

Lemma ProcessMesh_appends (mesh : aiMesh) (tag1 : string) (s : scene) :
  exists m,
    m_meshes (ProcessMesh position0 rotation0 scale0 materialTag0 textureTag0 uvScale0
                shaderColor0 isRotating0 mesh tag1 s) = m_meshes s ++ [m] /\
    tag m = tag1 /\
    imported_instance position0 rotation0 scale0 materialTag0 textureTag0 uvScale0
                      shaderColor0 isRotating0 m /\
    console (ProcessMesh position0 rotation0 scale0 materialTag0 textureTag0 uvScale0
               shaderColor0 isRotating0 mesh tag1 s) = console s.
Proof.
  unfold ProcessMesh, AddMeshToScene. cbn [m_meshes console].
  rewrite set_back_isRotating_snoc.
  eexists. split; [reflexivity|]. split; [reflexivity|]. split; [|reflexivity].
  unfold imported_instance; cbn.
  repeat split. do 2 eexists. reflexivity.
Qed.

Lemma process_node_meshes_appends (sc : aiScene) (tag0 : string) (ids : list nat) :
  forall i s, exists added,
    m_meshes (process_node_meshes position0 rotation0 scale0 materialTag0 textureTag0
                uvScale0 shaderColor0 isRotating0 sc tag0 i ids s) = m_meshes s ++ added /\
    map tag added = map (fun k => (tag0 ++ to_string k)%string) (seq i (length ids)) /\
    Forall (imported_instance position0 rotation0 scale0 materialTag0 textureTag0 uvScale0
                              shaderColor0 isRotating0) added /\
    console (process_node_meshes position0 rotation0 scale0 materialTag0 textureTag0
               uvScale0 shaderColor0 isRotating0 sc tag0 i ids s) = console s.
Proof.
  induction ids as [|k ids IH]; intros i s.
  - exists []. simpl. rewrite app_nil_r. repeat split. constructor.
  - cbn [process_node_meshes].
    destruct (ProcessMesh_appends (nth k (mMeshes sc) empty_aiMesh) (tag0 ++ to_string i) s)
      as [m [Hm [Tm [Pm Cm]]]].
    destruct (IH (S i) (ProcessMesh position0 rotation0 scale0 materialTag0 textureTag0
                          uvScale0 shaderColor0 isRotating0
                          (nth k (mMeshes sc) empty_aiMesh) (tag0 ++ to_string i) s))
      as [added [Ha [Ta [Pa Ca]]]].
    exists (m :: added). rewrite Ha, Hm, <- app_assoc.
    split; [reflexivity|]. split; [cbn [map length seq]; rewrite Tm, Ta; reflexivity|].
    split; [constructor; assumption|].
    rewrite Ca, Cm. reflexivity.
Qed.

Lemma ProcessNode_appends (sc : aiScene) (tag0 : string) (node : aiNode) :
  forall s, exists added,
    m_meshes (ProcessNode position0 rotation0 scale0 materialTag0 textureTag0 uvScale0
                shaderColor0 isRotating0 node sc tag0 s) = m_meshes s ++ added /\
    map tag added = node_tags tag0 node /\
    Forall (imported_instance position0 rotation0 scale0 materialTag0 textureTag0 uvScale0
                              shaderColor0 isRotating0) added /\
    console (ProcessNode position0 rotation0 scale0 materialTag0 textureTag0 uvScale0
               shaderColor0 isRotating0 node sc tag0 s) = console s.
Proof.
  induction node as [ids cs HF] using aiNode_rect'. intros s.
  cbn [ProcessNode node_tags].
  destruct (process_node_meshes_appends sc tag0 ids 0 s) as [a1 [H1 [T1 [P1 C1]]]].
  revert a1 H1 T1 P1 C1.
  generalize (process_node_meshes position0 rotation0 scale0 materialTag0 textureTag0
                uvScale0 shaderColor0 isRotating0 sc tag0 0 ids s) as s1.
  generalize (map (fun i => (tag0 ++ to_string i)%string) (seq 0 (length ids))) as pre.
  induction HF as [|c cs Hc HF IH]; intros pre s1 a1 H1 T1 P1 C1.
  - exists a1. cbn. rewrite H1, !app_nil_r. split; [reflexivity|].
    split; [exact T1|]. split; assumption.
  - cbn.
    destruct (Hc s1) as [a2 [H2 [T2 [P2 C2]]]].
    destruct (IH (pre ++ node_tags tag0 c)
                 (ProcessNode position0 rotation0 scale0 materialTag0 textureTag0 uvScale0
                    shaderColor0 isRotating0 c sc tag0 s1) (a1 ++ a2))
      as [a3 [H3 [T3 [P3 C3]]]].
    + rewrite H2, H1, app_assoc. reflexivity.
    + rewrite map_app, T1, T2. reflexivity.
    + apply Forall_app. split; assumption.
    + rewrite C2. exact C1.
    + exists a3. split; [exact H3|]. split; [rewrite T3, app_assoc; reflexivity|].
      split; assumption.
Qed.

End ImportFacts.

(** [LoadModel] with a scene the importer reads: it appends, after the
    existing instances (which stay as they were), one instance per mesh
    reference of the node tree, in the order [ProcessNode] visits them (the
    node's meshes, then each child's tree in turn). The instance of the
    [i]-th mesh of its node has the tag [tag + std::to_string(i)]; every new
    instance has the position, rotation, scale, material, texture, UV scale,
    color and isRotating passed in, and a draw action of the imported mesh.
    Nothing is written to the console. *)
Theorem LoadModel_appends_instances (position0 rotation0 scale0 : vec3)
    (materialTag0 textureTag0 : string) (uvScale0 : vec2) (shaderColor0 : vec4)
    (isRotating0 : bool) (ReadFile : string -> string + aiScene) (filename tag0 : string)
    (s : scene) (sc : aiScene) :
  ReadFile filename = inr sc ->
  exists added,
    m_meshes (LoadModel position0 rotation0 scale0 materialTag0 textureTag0 uvScale0
                shaderColor0 isRotating0 ReadFile filename tag0 s) = m_meshes s ++ added /\
    map tag added = node_tags tag0 (mRootNode sc) /\
    Forall (imported_instance position0 rotation0 scale0 materialTag0 textureTag0
                              uvScale0 shaderColor0 isRotating0) added /\
    console (LoadModel position0 rotation0 scale0 materialTag0 textureTag0 uvScale0
               shaderColor0 isRotating0 ReadFile filename tag0 s) = console s.
Proof.
  intros H. unfold LoadModel. rewrite H.
  apply ProcessNode_appends.
Qed.

(** Witness of [LoadModel_appends_instances]: the bunny asset under the tag
    "Stanford Bunny", rotating; its one mesh is tagged "Stanford Bunny0". *)
Lemma LoadModel_appends_instances_witness :
  bunny_reader "../../Models/bunny.obj" = inr bunny_asset /\
  exists added,
    m_meshes (LoadModel zero3 zero3 one3 "" "" one2 one4 true bunny_reader
                "../../Models/bunny.obj" "Stanford Bunny" (mkScene three_meshes 1 []))
      = three_meshes ++ added /\
    map tag added = ["Stanford Bunny0"%string] /\
    Forall (imported_instance zero3 zero3 one3 "" "" one2 one4 true) added /\
    console (LoadModel zero3 zero3 one3 "" "" one2 one4 true bunny_reader
               "../../Models/bunny.obj" "Stanford Bunny" (mkScene three_meshes 1 [])) = [].
Proof.
  split; [reflexivity|].
  exact (LoadModel_appends_instances zero3 zero3 one3 "" "" one2 one4 true bunny_reader
           "../../Models/bunny.obj" "Stanford Bunny" (mkScene three_meshes 1 []) bunny_asset
           eq_refl).
Defined.

(** ** Loading a scene file: records without an imported model *)

Lemma deserialize_record_instance (ReadFile : string -> string + aiScene)
    (j : json_mesh) (s : scene) :
  model_asset (j_tag j) = None ->
  deserialize_mesh ReadFile j s = set_meshes s (m_meshes s ++ [record_instance j]).
Proof.
  intros H. unfold deserialize_mesh, record_instance. rewrite H.
  destruct (primitive_of_tag (j_tag j)); reflexivity.
Qed.

Lemma fold_deserialize_failing (ReadFile : string -> string + aiScene) (js : list json_mesh) :
  imports_fail ReadFile js ->
  forall s,
    fold_left (fun s' j => deserialize_mesh ReadFile j s') js s =
    mkScene (m_meshes s ++ map record_instance
               (filter (fun j => match model_asset (j_tag j) with Some _ => false | None => true end) js))
            (gl_next_name s)
            (console s ++ import_errors ReadFile js).
Proof.
  unfold imports_fail, import_errors.
  induction 1 as [|j js Hj HF IH]; intros s; cbn [fold_left filter map flat_map].
  - rewrite !app_nil_r. destruct s; reflexivity.
  - rewrite IH. destruct (model_asset (j_tag j)) as [path|] eqn:Hm.
    + destruct Hj as [e He].
      unfold deserialize_mesh, LoadModel. rewrite Hm, He. cbn.
      rewrite <- app_assoc. reflexivity.
    + rewrite deserialize_record_instance by exact Hm. cbn.
      rewrite <- app_assoc. reflexivity.
Qed.

(** [DeserializeSceneData] when the file opens but the importer fails on the
    asset of every record naming an imported model: the previous instances
    are discarded; each such record yields no instance and one console line
    "ERROR::ASSIMP::" followed by the importer's message for its asset, in
    record order; every other record yields, in order, the instance built
    from it (the primitive its tag names, or no draw action). *)
Theorem DeserializeSceneData_import_failure (ReadFile : string -> string + aiScene)
    (fs : files) (filename : string) (js : list json_mesh) (s : scene) :
  fs filename = Some js -> imports_fail ReadFile js ->
  m_meshes (DeserializeSceneData ReadFile fs filename s) =
    map record_instance
      (filter (fun j => match model_asset (j_tag j) with Some _ => false | None => true end) js) /\
  console (DeserializeSceneData ReadFile fs filename s) =
    console s ++ import_errors ReadFile js.
Proof.
  intros Hf HR. unfold DeserializeSceneData. rewrite Hf.
  rewrite (fold_deserialize_failing ReadFile js HR). cbn. split; reflexivity.
Qed.

(** Witness of [DeserializeSceneData_import_failure]: the saved bunny and
    spinning box, reloaded with an importer whose message names the missing
    file; the box is restored and the bunny leaves one error line. *)
Lemma DeserializeSceneData_import_failure_witness :
  SerializeSceneData no_files "scene.json" [bunny_instance; spinning_box] "scene.json"%string
    = Some (map mesh_to_json [bunny_instance; spinning_box]) /\
  imports_fail missing_assets (map mesh_to_json [bunny_instance; spinning_box]) /\
  m_meshes (DeserializeSceneData missing_assets
              (SerializeSceneData no_files "scene.json" [bunny_instance; spinning_box])
              "scene.json" (mkScene three_meshes 1 [])) =
    [record_instance (mesh_to_json spinning_box)] /\
  console (DeserializeSceneData missing_assets
             (SerializeSceneData no_files "scene.json" [bunny_instance; spinning_box])
             "scene.json" (mkScene three_meshes 1 [])) =
    ["ERROR::ASSIMP::Unable to open file ../../Models/bunny.obj"%string].
Proof.
  assert (Hf : SerializeSceneData no_files "scene.json" [bunny_instance; spinning_box]
                 "scene.json"%string = Some (map mesh_to_json [bunny_instance; spinning_box]))
    by reflexivity.
  assert (HR : imports_fail missing_assets (map mesh_to_json [bunny_instance; spinning_box])).
  { repeat constructor; vm_compute; eexists; reflexivity. }
  split; [exact Hf|]. split; [exact HR|].
  destruct (DeserializeSceneData_import_failure missing_assets _ "scene.json" _
              (mkScene three_meshes 1 []) Hf HR) as [Hm Hc].
  rewrite Hm, Hc. split; vm_compute; reflexivity.
Defined.

Lemma fold_deserialize_model_free (ReadFile : string -> string + aiScene) (js : list json_mesh) :
  Forall (fun j => model_asset (j_tag j) = None) js ->
  forall s, m_meshes (fold_left (fun s' j => deserialize_mesh ReadFile j s') js s) =
            m_meshes s ++ map record_instance js.
Proof.
  induction 1 as [|j js Hj _ IH]; intros s; cbn [fold_left map].
  - rewrite app_nil_r. reflexivity.
  - rewrite IH, deserialize_record_instance by exact Hj. cbn.
    rewrite <- app_assoc. reflexivity.
Qed.

(** Saving a list in which no tag names an imported model and loading it
    back gives the same number of instances in the same order, each with its
    tag, rotation, position, scale, material and texture tags, UV scale and
    color; its draw action is that of the primitive its tag names (none for
    an unrecognised tag); isRotating is reset to false for a primitive tag
    and kept for an unrecognised one. *)
Theorem save_load_model_free (ReadFile : string -> string + aiScene) (fs : files)
    (filename : string) (s : scene) (S : list MESH_OBJECT) :
  Forall (fun m => model_asset (tag m) = None) S ->
  save_load ReadFile fs filename s S =
    map (fun m => mkMesh (tag m) (rotation m) (position m) (scale m) (materialTag m)
                         (textureTag m) (uvScale m) (shaderColor m)
                         (option_map DrawPrimitive (primitive_of_tag (tag m)))
                         (match primitive_of_tag (tag m) with
                          | Some _ => false
                          | None => isRotating m
                          end)) S.
Proof.
  intros HS. unfold save_load, DeserializeSceneData, SerializeSceneData.
  rewrite String.eqb_refl.
  rewrite fold_deserialize_model_free.
  - cbn [m_meshes set_meshes app]. rewrite map_map. apply map_ext.
    intros m. unfold record_instance; cbn [mesh_to_json j_tag].
    destruct (primitive_of_tag (tag m)); reflexivity.
  - apply Forall_map. exact HS.
Qed.

(** Witness of [save_load_model_free]: a spinning box and an instance
    tagged "lamp" with isRotating set. *)
Lemma save_load_model_free_witness :
  Forall (fun m => model_asset (tag m) = None)
    [spinning_box; mkMesh "lamp" zero3 zero3 one3 "wood" "" one2 one4 None true] /\
  map isRotating (save_load no_assets no_files "scene.json" (mkScene [] 1 [])
    [spinning_box; mkMesh "lamp" zero3 zero3 one3 "wood" "" one2 one4 None true])
  = [false; true].
Proof.
  assert (H : Forall (fun m => model_asset (tag m) = None)
                [spinning_box; mkMesh "lamp" zero3 zero3 one3 "wood" "" one2 one4 None true]).
  { repeat constructor. }
  split; [exact H|].
  rewrite (save_load_model_free no_assets no_files "scene.json" (mkScene [] 1 []) _ H).
  reflexivity.
Defined.
